(** * get_current_week_events.py: a shallow embedding and its properties

    The script collects room reservations of the current week from a
    calendar service.  This development embeds its functions
    (get_current_week_dates, _parse_datetime, _find_cookie_script,
    _load_cookie_from_disk, _run_cookie_script, get_wssessionid,
    _load_cookie_from_search_results, get_url, fetch_building_events,
    get_current_week_events) together with the part of the Python runtime
    they rely on: JSON values, exceptions, the proleptic Gregorian calendar
    of module datetime, and the file system, subprocess and HTTP effects,
    which are threaded through an explicit world state.

    Left out: the print calls (they change no result), save_events_to_file
    and main, the loading of .env, and failures of the interpreter itself
    (a subprocess that cannot be spawned, a file that vanishes between
    exists() and read_text()). *)

From Stdlib Require Import ZArith List String Ascii Bool Lia QArith Floats.
Import ListNotations.

Local Open Scope string_scope.
Local Open Scope Z_scope.

(** ** Exceptions *)

(** What requests.get and raise_for_status report. *)
Inductive request_error : Type :=
| Timeout
| ConnectionError
| HTTPError (status : Z).

(** The exception classes the functions of the script meet. *)
Inductive exn : Type :=
| AttributeError
| TypeError
| IndexError
| KeyError
| OverflowError
| OSError
| JSONDecodeError
| RequestException (e : request_error)
| FileNotFoundError (msg : string)
| RuntimeError (msg : string).

(** json.JSONDecodeError, and the error of response.json(), derive from
    ValueError. *)
Definition is_ValueError (e : exn) : bool :=
  match e with JSONDecodeError => true | _ => false end.

Definition is_JSONDecodeError (e : exn) : bool :=
  match e with JSONDecodeError => true | _ => false end.

Definition is_RequestException (e : exn) : bool :=
  match e with RequestException _ => true | _ => false end.

(** A computation that returns a value or raises. *)
Definition result (A : Type) : Type := (exn + A)%type.

Definition ok {A} (a : A) : result A := inr a.
Definition raise {A} (e : exn) : result A := inl e.

Definition rbind {A B} (r : result A) (k : A -> result B) : result B :=
  match r with
  | inl e => inl e
  | inr a => k a
  end.

(** ** The calendar of module datetime *)

Module Calendar.

Definition MINYEAR : Z := 1.
Definition MAXYEAR : Z := 9999.
(** date.max.toordinal() *)
Definition MAXORDINAL : Z := 3652059.

Record date : Type := mkdate { year : Z; month : Z; day : Z }.

Definition is_leap (y : Z) : bool :=
  (y mod 4 =? 0) && (negb (y mod 100 =? 0) || (y mod 400 =? 0)).

(** _DAYS_IN_MONTH, index 0 unused *)
Definition DAYS_IN_MONTH (m : Z) : Z :=
  match m with
  | 1 => 31 | 2 => 28 | 3 => 31 | 4 => 30 | 5 => 31 | 6 => 30
  | 7 => 31 | 8 => 31 | 9 => 30 | 10 => 31 | 11 => 30 | 12 => 31
  | _ => -1
  end.

(** _DAYS_BEFORE_MONTH, index 0 unused *)
Definition DAYS_BEFORE_MONTH (m : Z) : Z :=
  match m with
  | 1 => 0 | 2 => 31 | 3 => 59 | 4 => 90 | 5 => 120 | 6 => 151
  | 7 => 181 | 8 => 212 | 9 => 243 | 10 => 273 | 11 => 304 | 12 => 334
  | _ => -1
  end.

Definition b2z (b : bool) : Z := if b then 1 else 0.

Definition days_before_year (y : Z) : Z :=
  let y1 := y - 1 in
  y1 * 365 + y1 / 4 - y1 / 100 + y1 / 400.

Definition days_in_month (y m : Z) : Z :=
  if (m =? 2) && is_leap y then 29 else DAYS_IN_MONTH m.

Definition days_before_month (y m : Z) : Z :=
  DAYS_BEFORE_MONTH m + b2z ((2 <? m) && is_leap y).

(** _ymd2ord: 01-Jan-0001 is day 1 *)
Definition ymd2ord (y m d : Z) : Z :=
  days_before_year y + days_before_month y m + d.

Definition DI400Y : Z := 146097.
Definition DI100Y : Z := 36524.
Definition DI4Y : Z := 1461.

(** _ord2ymd *)
Definition ord2ymd (n0 : Z) : date :=
  let n := n0 - 1 in
  let n400 := n / DI400Y in
  let n := n mod DI400Y in
  let y := n400 * 400 + 1 in
  let n100 := n / DI100Y in
  let n := n mod DI100Y in
  let n4 := n / DI4Y in
  let n := n mod DI4Y in
  let n1 := n / 365 in
  let n := n mod 365 in
  let y := y + n100 * 100 + n4 * 4 + n1 in
  if (n1 =? 4) || (n100 =? 4) then mkdate (y - 1) 12 31
  else
    let leapyear := (n1 =? 3) && (negb (n4 =? 24) || (n100 =? 3)) in
    let m := Z.shiftr (n + 50) 5 in
    let preceding := DAYS_BEFORE_MONTH m + b2z ((2 <? m) && leapyear) in
    if n <? preceding then
      let m' := m - 1 in
      let preceding' :=
        preceding - (DAYS_IN_MONTH m' + b2z ((m' =? 2) && leapyear)) in
      mkdate y m' (n - preceding' + 1)
    else mkdate y m (n - preceding + 1).

(** The checks of date's constructor (_check_date_fields). *)
Definition valid_date (d : date) : bool :=
  (MINYEAR <=? year d) && (year d <=? MAXYEAR) &&
  (1 <=? month d) && (month d <=? 12) &&
  (1 <=? day d) && (day d <=? days_in_month (year d) (month d)).

Definition toordinal (d : date) : Z := ymd2ord (year d) (month d) (day d).
Definition fromordinal (n : Z) : date := ord2ymd n.

(** date.weekday(): Monday is 0 *)
Definition weekday (d : date) : Z := (toordinal d + 6) mod 7.

(** date.__add__ with a timedelta of [days] whole days *)
Definition date_add_days (d : date) (days : Z) : result date :=
  let o := toordinal d + days in
  if (0 <? o) && (o <=? MAXORDINAL) then ok (fromordinal o)
  else raise OverflowError.

(** date.__sub__ with a timedelta: self + timedelta(-other.days) *)
Definition date_sub_days (d : date) (days : Z) : result date :=
  date_add_days d (- days).

End Calendar.

(** ** Strings

    A Python str is modelled by a Rocq [string]; the operations below are
    the str methods the script calls, on ASCII text (cookie headers and
    ISO timestamps). *)

Module Str.

(** str.isspace on one character: TAB..CR, FS..US and the blank *)
Definition is_space (c : ascii) : bool :=
  let n := Z.of_nat (nat_of_ascii c) in
  ((9 <=? n) && (n <=? 13)) || ((28 <=? n) && (n <=? 31)) || (n =? 32).

Fixpoint lstrip (s : string) : string :=
  match s with
  | EmptyString => EmptyString
  | String c s' => if is_space c then lstrip s' else s
  end.

Fixpoint rstrip (s : string) : string :=
  match s with
  | EmptyString => EmptyString
  | String c s' =>
      match rstrip s' with
      | EmptyString => if is_space c then EmptyString else String c EmptyString
      | r => String c r
      end
  end.

(** str.strip() *)
Definition strip (s : string) : string := rstrip (lstrip s).

Definition upper_char (c : ascii) : ascii :=
  let n := nat_of_ascii c in
  if (Nat.leb 97 n && Nat.leb n 122)%bool then ascii_of_nat (n - 32) else c.

(** str.upper() *)
Fixpoint upper (s : string) : string :=
  match s with
  | EmptyString => EmptyString
  | String c s' => String (upper_char c) (upper s')
  end.

(** str.startswith(p) *)
Definition startswith (p s : string) : bool := String.prefix p s.

(** str.endswith(c) for a one-character suffix *)
Fixpoint endswith_char (c : ascii) (s : string) : bool :=
  match s with
  | EmptyString => false
  | String a EmptyString => Ascii.eqb a c
  | String _ s' => endswith_char c s'
  end.

(** s[:-1] *)
Fixpoint drop_last (s : string) : string :=
  match s with
  | EmptyString => EmptyString
  | String _ EmptyString => EmptyString
  | String a s' => String a (drop_last s')
  end.

(** str.split(sep) for a one-character separator: never the empty list *)
Fixpoint split (sep : ascii) (s : string) : list string :=
  match s with
  | EmptyString => [EmptyString]
  | String c s' =>
      if Ascii.eqb c sep then EmptyString :: split sep s'
      else match split sep s' with
           | p :: ps => String c p :: ps
           | [] => [String c EmptyString]
           end
  end.

(** str.split(sep, 1): one or two pieces *)
Fixpoint split_once (sep : ascii) (s : string) : list string :=
  match s with
  | EmptyString => [EmptyString]
  | String c s' =>
      if Ascii.eqb c sep then [EmptyString; s']
      else match split_once sep s' with
           | p :: ps => String c p :: ps
           | [] => [String c EmptyString]
           end
  end.

(** str.find(c) for one character: the index of the first occurrence *)
Fixpoint find (c : ascii) (s : string) : option nat :=
  match s with
  | EmptyString => None
  | String a s' =>
      if Ascii.eqb a c then Some O else option_map S (find c s')
  end.

(** s[i:] *)
Fixpoint drop (i : nat) (s : string) : string :=
  match i, s with
  | O, _ => s
  | S i', String _ s' => drop i' s'
  | S _, EmptyString => EmptyString
  end.

(** s[:i] *)
Definition take (i : nat) (s : string) : string := substring 0 i s.

Definition nonempty (s : string) : bool :=
  match s with EmptyString => false | _ => true end.

Definition digit_char (d : Z) : ascii := ascii_of_nat (48 + Z.to_nat d).

Fixpoint digits_rev (fuel : nat) (n : Z) : string :=
  match fuel with
  | O => EmptyString
  | S fuel' =>
      if n <? 10 then String (digit_char n) EmptyString
      else String (digit_char (n mod 10)) (digits_rev fuel' (n / 10))
  end.

Fixpoint rev_append (s acc : string) : string :=
  match s with
  | EmptyString => acc
  | String c s' => rev_append s' (String c acc)
  end.

(** The decimal digits of a natural number [n] *)
Definition digits (n : Z) : string :=
  rev_append (digits_rev (S (Z.to_nat (Z.log2 n))) n) EmptyString.

(** str(n) for an int *)
Definition of_int (n : Z) : string :=
  if n <? 0 then String "-"%char (digits (- n)) else digits n.

Fixpoint zeros (k : nat) : string :=
  match k with
  | O => EmptyString
  | S k' => String "0"%char (zeros k')
  end.

(** "%0wd" % n for n >= 0 *)
Definition zfill (w : nat) (n : Z) : string :=
  let d := digits n in
  (zeros (w - String.length d) ++ d)%string.

Definition digit_val (c : ascii) : option Z :=
  let n := Z.of_nat (nat_of_ascii c) in
  if (48 <=? n) && (n <=? 57) then Some (n - 48) else None.

Fixpoint parse_digits_acc (s : string) (acc : Z) : option Z :=
  match s with
  | EmptyString => Some acc
  | String c s' =>
      match digit_val c with
      | Some d => parse_digits_acc s' (10 * acc + d)
      | None => None
      end
  end.

(** A field of exactly [w] decimal digits *)
Definition parse_digits (w : nat) (s : string) : option Z :=
  if Nat.eqb (String.length s) w then parse_digits_acc s 0 else None.

End Str.

(** ** Python values

    The values json.loads produces.  A dict keeps its items in insertion
    order; a lookup returns the first item with the key. *)

#[warnings="-register-all"]
Inductive pyval : Type :=
| PNone
| PBool (b : bool)
| PInt (n : Z)
| PFloat (f : float)
| PStr (s : string)
| PList (l : list pyval)
| PDict (d : list (string * pyval)).

Fixpoint lookup (k : string) (d : list (string * pyval)) : option pyval :=
  match d with
  | [] => None
  | (k', v) :: d' => if String.eqb k k' then Some v else lookup k d'
  end.

(** bool(v) *)
Definition truthy (v : pyval) : bool :=
  match v with
  | PNone => false
  | PBool b => b
  | PInt n => negb (n =? 0)
  | PFloat f => negb (PrimFloat.eqb f 0%float)
  | PStr s => Str.nonempty s
  | PList l => match l with [] => false | _ => true end
  | PDict d => match d with [] => false | _ => true end
  end.

(** v.get(k, default): only a dict has the method *)
Definition py_get (v : pyval) (k : string) (default : pyval) : result pyval :=
  match v with
  | PDict d => ok (match lookup k d with Some x => x | None => default end)
  | _ => raise AttributeError
  end.

(** v[0].  The keys of a dict read from JSON are strings, never 0. *)
Definition py_index0 (v : pyval) : result pyval :=
  match v with
  | PList [] => raise IndexError
  | PList (x :: _) => ok x
  | PStr EmptyString => raise IndexError
  | PStr (String c _) => ok (PStr (String c EmptyString))
  | PDict _ => raise KeyError
  | _ => raise TypeError
  end.

Fixpoint chars (s : string) : list pyval :=
  match s with
  | EmptyString => []
  | String c s' => PStr (String c EmptyString) :: chars s'
  end.

(** iter(v): the items a for loop visits *)
Definition py_iter (v : pyval) : result (list pyval) :=
  match v with
  | PList l => ok l
  | PDict d => ok (map (fun kv => PStr (fst kv)) d)
  | PStr s => ok (chars s)
  | _ => raise TypeError
  end.

(** v[:20]: defined on sequences; a dict rejects a slice as a key *)
Definition py_slice20 (v : pyval) : result pyval :=
  match v with
  | PStr s => ok (PStr (Str.take 20 s))
  | PList l => ok (PList (firstn 20 l))
  | _ => raise TypeError
  end.

(** ** datetime objects *)

Module DT.
Import Calendar.

(** A datetime; [tzinfo] is the UTC offset in microseconds of an aware
    object and [None] for a naive one. *)
Record datetime : Type := mkdt {
  dt_date : date;
  hour : Z;
  minute : Z;
  second : Z;
  microsecond : Z;
  tzinfo : option Z
}.

(** The checks of the constructor (_check_date_fields, _check_time_fields) *)
Definition valid_time (h mi s us : Z) : bool :=
  (0 <=? h) && (h <=? 23) && (0 <=? mi) && (mi <=? 59) &&
  (0 <=? s) && (s <=? 59) && (0 <=? us) && (us <=? 999999).

Definition valid_datetime (x : datetime) : bool :=
  valid_date (dt_date x) &&
  valid_time (hour x) (minute x) (second x) (microsecond x).

Definition US_PER_SECOND : Z := 1000000.
Definition US_PER_DAY : Z := 86400 * US_PER_SECOND.

(** _parse_isoformat_date on the ten characters YYYY-MM-DD *)
Definition parse_isoformat_date (dstr : string) : option (Z * Z * Z) :=
  match Str.parse_digits 4 (substring 0 4 dstr),
        String.get 4 dstr,
        Str.parse_digits 2 (substring 5 2 dstr),
        String.get 7 dstr,
        Str.parse_digits 2 (substring 8 2 dstr) with
  | Some y, Some "-"%char, Some m, Some "-"%char, Some d => Some (y, m, d)
  | _, _, _, _, _ => None
  end.

Definition char_at_is (i : nat) (c : ascii) (s : string) : bool :=
  match String.get i s with
  | Some a => Ascii.eqb a c
  | None => false
  end.

(** _parse_hh_mm_ss_ff: HH[:MM[:SS[.fff[fff]]]] *)
Definition parse_hh_mm_ss_ff (t : string) : option (Z * Z * Z * Z) :=
  let len := String.length t in
  match Str.parse_digits 2 (substring 0 2 t) with
  | None => None
  | Some h =>
    if Nat.eqb len 2 then Some (h, 0, 0, 0)
    else if negb (char_at_is 2 ":" t) then None
    else
      match Str.parse_digits 2 (substring 3 2 t) with
      | None => None
      | Some mi =>
        if Nat.eqb len 5 then Some (h, mi, 0, 0)
        else if negb (char_at_is 5 ":" t) then None
        else
          match Str.parse_digits 2 (substring 6 2 t) with
          | None => None
          | Some s =>
            if Nat.eqb len 8 then Some (h, mi, s, 0)
            else if negb (char_at_is 8 "." t) then None
            else
              let frac := Str.drop 9 t in
              match String.length frac with
              | 3%nat =>
                  option_map (fun us => (h, mi, s, us * 1000))
                             (Str.parse_digits 3 frac)
              | 6%nat =>
                  option_map (fun us => (h, mi, s, us))
                             (Str.parse_digits 6 frac)
              | _ => None
              end
          end
      end
  end.

(** tstr.find('-') + 1 or tstr.find('+') + 1: the index of the sign *)
Definition tz_sign_pos (t : string) : option nat :=
  match Str.find "-" t with
  | Some i => Some i
  | None => Str.find "+" t
  end.

(** timezone(offset): the offset lies strictly between -24h and 24h *)
Definition timezone (offset_us : Z) : option Z :=
  if (- US_PER_DAY <? offset_us) && (offset_us <? US_PER_DAY)
  then Some offset_us else None.

(** _parse_isoformat_time: HH[:MM[:SS[.fff[fff]]]][+HH:MM[:SS[.ffffff]]];
    the last component is the tzinfo *)
Definition parse_isoformat_time (t : string)
  : option (Z * Z * Z * Z * option Z) :=
  if Nat.ltb (String.length t) 2 then None
  else
    match tz_sign_pos t with
    | None => option_map (fun c => (c, None)) (parse_hh_mm_ss_ff t)
    | Some i =>
      match parse_hh_mm_ss_ff (Str.take i t) with
      | None => None
      | Some c =>
        let tzstr := Str.drop (S i) t in
        let l := String.length tzstr in
        if negb (Nat.eqb l 5 || Nat.eqb l 8 || Nat.eqb l 15) then None
        else
          match parse_hh_mm_ss_ff tzstr with
          | None => None
          | Some (h, mi, s, us) =>
            let td := ((h * 3600 + mi * 60 + s) * US_PER_SECOND + us) in
            let sign := if char_at_is i "-" t then -1 else 1 in
            option_map (fun tz => (c, Some tz)) (timezone (sign * td))
          end
      end
    end.

(** datetime.fromisoformat, for the strings date.isoformat and
    datetime.isoformat emit: YYYY-MM-DD, any one separator character, and
    the time grammar above.  [None] stands for ValueError. *)
Definition fromisoformat (s : string) : option datetime :=
  let dstr := Str.take 10 s in
  let tstr := Str.drop 11 s in
  match parse_isoformat_date dstr with
  | None => None
  | Some (y, m, d) =>
    let comps :=
      if Str.nonempty tstr then parse_isoformat_time tstr
      else Some (0, 0, 0, 0, None) in
    match comps with
    | None => None
    | Some (h, mi, sec, us, tz) =>
      let x := mkdt (mkdate y m d) h mi sec us tz in
      if valid_datetime x then Some x else None
    end
  end.

(** The microseconds from the start of day 0 to a naive reading of [x] *)
Definition to_microseconds (x : datetime) : Z :=
  toordinal (dt_date x) * US_PER_DAY
  + (second x + minute x * 60 + hour x * 3600) * US_PER_SECOND
  + microsecond x.

(** datetime.__sub__: the timedelta, in microseconds.  A naive and an aware
    operand do not mix. *)
Definition datetime_sub (a b : datetime) : result Z :=
  let base := to_microseconds a - to_microseconds b in
  match tzinfo a, tzinfo b with
  | None, None => ok base
  | Some oa, Some ob => ok (base + ob - oa)
  | _, _ => raise TypeError
  end.

(** The naive reading of a datetime: replace(tzinfo=None) *)
Definition naive (x : datetime) : datetime :=
  mkdt (dt_date x) (hour x) (minute x) (second x) (microsecond x) None.

(** timedelta.total_seconds(), as an exact rational *)
Definition total_seconds (td : Z) : Q := Qmake td 1000000.

(** date.isoformat(): "%04d-%02d-%02d" *)
Definition isoformat (d : date) : string :=
  (Str.zfill 4 (year d) ++ "-" ++ Str.zfill 2 (month d) ++ "-"
   ++ Str.zfill 2 (day d))%string.

End DT.

(** ** The world the script runs in *)

(** What a text holds for json.loads and response.json(): a JSON document,
    or something the decoder rejects. *)
Inductive content : Type :=
| NotJson
| Json (v : pyval).

(** A file next to the script, named by its file name. *)
Inductive file_state : Type :=
| Missing
| Unreadable
| Content (c : content).

Record env : Type := mkenv {
  fs : string -> file_state;
  now : DT.datetime
}.

(** subprocess.CompletedProcess *)
Record completed_process : Type := mkcp {
  returncode : Z;
  stdout : string;
  stderr : string
}.

(** requests.Response *)
Record response : Type := mkresp {
  status_code : Z;
  body : content
}.

(** The collaborators outside the script: the formatting of values by
    str(), the extractor programs, and the calendar service, which answers
    the n-th request of a run. *)
Record runtime : Type := mkruntime {
  repr : pyval -> string;
  run : string -> env -> completed_process * env;
  http : nat -> string -> string -> request_error + response
}.

Inductive effect : Type :=
| EvExists (file : string)
| EvReadText (file : string)
| EvNow
| EvToday
| EvRun (script : string)
| EvGet (url : string) (cookie_header : string)
| EvSleep (seconds : Q).

Record world : Type := mkworld {
  w_env : env;
  w_requests : nat;
  w_trace : list effect
}.

(** A statement of the script: it returns or raises, and changes the
    world. *)
Definition M (A : Type) : Type := world -> result A * world.

Definition ret {A} (a : A) : M A := fun w => (ok a, w).
Definition throw {A} (e : exn) : M A := fun w => (raise e, w).
Definition lift {A} (r : result A) : M A := fun w => (r, w).

Definition bind {A B} (c : M A) (k : A -> M B) : M B :=
  fun w =>
    match c w with
    | (inl e, w') => (inl e, w')
    | (inr a, w') => k a w'
    end.

Notation "x <- c ;; k" := (bind c (fun x => k))
  (at level 61, c at next level, right associativity).
Notation "c ;;; k" := (bind c (fun _ => k))
  (at level 61, right associativity).

(** try: c / except E: h, where [handles] tells the exceptions of class E *)
Definition try_except {A} (c : M A) (handles : exn -> bool) (h : M A) : M A :=
  fun w =>
    match c w with
    | (inl e, w') => if handles e then h w' else (inl e, w')
    | r => r
    end.

Definition log (e : effect) : M unit :=
  fun w => (ok tt, mkworld (w_env w) (w_requests w) (w_trace w ++ [e])%list).

(** A for loop over [xs] that updates an accumulator; an exception ends
    it. *)
Fixpoint for_each {A S} (body : A -> S -> M S) (xs : list A) (s : S) : M S :=
  match xs with
  | [] => ret s
  | x :: xs' => s' <- body x s ;; for_each body xs' s'
  end.

Fixpoint for_each_r {A S} (body : A -> S -> result S) (xs : list A) (s : S)
  : result S :=
  match xs with
  | [] => ok s
  | x :: xs' => rbind (body x s) (for_each_r body xs')
  end.

(** Path.exists() *)
Definition path_exists (file : string) : M bool :=
  log (EvExists file) ;;;
  fun w => (ok (match fs (w_env w) file with Missing => false | _ => true end),
            w).

(** Path.read_text() *)
Definition read_text (file : string) : M content :=
  log (EvReadText file) ;;;
  fun w => (match fs (w_env w) file with
            | Content c => ok c
            | Missing => raise (FileNotFoundError file)
            | Unreadable => raise OSError
            end, w).

(** json.loads and response.json() *)
Definition json_loads (c : content) : result pyval :=
  match c with
  | Json v => ok v
  | NotJson => raise JSONDecodeError
  end.

(** datetime.now(): local time, as a naive object *)
Definition datetime_now : M DT.datetime :=
  log EvNow ;;; fun w => (ok (DT.naive (now (w_env w))), w).

(** date.today() *)
Definition date_today : M Calendar.date :=
  log EvToday ;;; fun w => (ok (DT.dt_date (now (w_env w))), w).

(** time.sleep *)
Definition sleep (seconds : Q) : M unit := log (EvSleep seconds).

(** response.raise_for_status(): client and server errors raise *)
Definition raise_for_status (r : response) : result unit :=
  if (400 <=? status_code r) && (status_code r <? 600)
  then raise (RequestException (HTTPError (status_code r)))
  else ok tt.

Definition Qlt_bool (a b : Q) : bool := negb (Qle_bool b a).

(** ** The script *)

Definition BUILDING_IDS : list string :=
  [ "618852"; "583845"; "583852"; "583841"; "583837"; "583840";
    "586114"; "586120"; "586116"; "586124"; "583865" ].

Definition COOKIE_FILE : string := "wssessionid_cookie.json".
Definition SEARCH_COOKIES_FILE : string :=
  "cmu_25live_search_cookies_today.json".
Definition PREFERRED_COOKIE_KEY : string := "athletics".
Definition COOKIE_MAX_AGE_HOURS : Q := 12.
Definition REQUEST_DELAY_SECONDS : Q := 1 # 2.

(** The dict fetch_building_events appends *)
Record EventRecord : Type := mkevent {
  name : string;
  location : pyval;
  startTime : pyval;
  endTime : pyval;
  date : string;
  buildingID : string
}.

(** range(7) *)
Definition range7 : list Z := [0; 1; 2; 3; 4; 5; 6].

(** The body of get_current_week_dates once today is read *)
Definition week_dates (today : Calendar.date) : result (list string) :=
  rbind (Calendar.date_sub_days today (Calendar.weekday today)) (fun monday =>
  for_each_r
    (fun i acc =>
       rbind (Calendar.date_add_days monday i) (fun d =>
       ok (acc ++ [DT.isoformat d])%list))
    range7 []).

Definition get_current_week_dates : M (list string) :=
  today <- date_today ;;
  lift (week_dates today).

(** The try block ends in ValueError for a malformed string and in
    AttributeError for a value without endswith; both are caught. *)
Definition _parse_datetime (value : pyval) : option DT.datetime :=
  match value with
  | PStr s =>
      let s := if Str.endswith_char "Z" s
               then (Str.drop_last s ++ "+00:00")%string else s in
      DT.fromisoformat s
  | _ => None
  end.

Definition extractor_candidates : list string :=
  [ "cmu25live_extractor.py"; "cmu_25live_search_cookie_extractor.py" ].

Definition no_extractor_message : string :=
  "Unable to locate a cookie extractor script. Expected one of: cmu25live_extractor.py, cmu_25live_search_cookie_extractor.py".

Fixpoint first_existing (candidates : list string) : M string :=
  match candidates with
  | [] => throw (FileNotFoundError no_extractor_message)
  | candidate :: rest =>
      e <- path_exists candidate ;;
      if e then ret candidate else first_existing rest
  end.

Definition _find_cookie_script : M string :=
  first_existing extractor_candidates.

(** try: json.loads(file.read_text()) / except json.JSONDecodeError;
    [None] is the handler's early return *)
Definition load_json_file (file : string) : M (option pyval) :=
  try_except
    (c <- read_text file ;; data <- lift (json_loads c) ;; ret (Some data))
    is_JSONDecodeError
    (ret None).

(** hours_diff is computed by Python in binary floating point.  The
    timedelta is a whole number N of microseconds; N / 10**6 and the
    division by 3600 are correctly rounded and monotone, 43200 and 12 are
    floats, and the float below 43200 * 10**6 microseconds lies far more
    than a rounding error under 12: the test hours_diff < 12 holds exactly
    when N < 43200 * 10**6.  The model computes with exact rationals. *)
Definition _load_cookie_from_disk : M pyval :=
  e <- path_exists COOKIE_FILE ;;
  if negb e then ret PNone
  else
    parsed <- load_json_file COOKIE_FILE ;;
    match parsed with
    | None => ret PNone
    | Some data =>
      extracted_at <- lift (py_get data "extracted_at" PNone) ;;
      cookie <- lift (py_get data "WSSESSIONID" PNone) ;;
      if negb (truthy cookie) || negb (truthy extracted_at) then ret PNone
      else
        match _parse_datetime extracted_at with
        | None => ret PNone
        | Some extracted_dt =>
          n <- datetime_now ;;
          td <- lift (DT.datetime_sub n extracted_dt) ;;
          let hours_diff := (DT.total_seconds td / 3600)%Q in
          if Qlt_bool hours_diff COOKIE_MAX_AGE_HOURS then ret cookie
          else ret PNone
        end
    end.

(** cookie_part.split("=", 1)[1] *)
Definition index1 (l : list string) : result string :=
  match l with
  | _ :: x :: _ => ok x
  | _ => raise IndexError
  end.

(** The loop over the parts of the cookie string *)
Fixpoint scan_cookie_parts (parts : list string) : result pyval :=
  match parts with
  | [] => ok PNone
  | cookie_part :: rest =>
      let cookie_part := Str.strip cookie_part in
      if Str.startswith "WSSESSIONID=" (Str.upper cookie_part) then
        rbind (index1 (Str.split_once "=" cookie_part)) (fun value =>
        if Str.nonempty value then ok (PStr value)
        else scan_cookie_parts rest)
      else scan_cookie_parts rest
  end.

(** raw_cookie_string.split(";"): only a str has the method *)
Definition py_split_semicolon (v : pyval) : result (list string) :=
  match v with
  | PStr s => ok (Str.split ";" s)
  | _ => raise AttributeError
  end.

Definition _load_cookie_from_search_results : M pyval :=
  e <- path_exists SEARCH_COOKIES_FILE ;;
  if negb e then ret PNone
  else
    parsed <- load_json_file SEARCH_COOKIES_FILE ;;
    match parsed with
    | None => ret PNone
    | Some data =>
      preferred_entry <- lift (py_get data PREFERRED_COOKIE_KEY PNone) ;;
      if negb (truthy preferred_entry) then ret PNone
      else
        raw_cookie_string <- lift (py_get preferred_entry "cookies" PNone) ;;
        if negb (truthy raw_cookie_string) then ret PNone
        else
          parts <- lift (py_split_semicolon raw_cookie_string) ;;
          lift (scan_cookie_parts parts)
    end.

Definition get_url (building_id day : string) : string :=
  ("https://25live.collegenet.com/25live/data/cmu/run/home/calendar/"
   ++ "calendardata.json?mode=pro&obj_cache_accl=0&space_query_id="
   ++ building_id ++ "&start_dt=" ++ day ++ "&end_dt=" ++ day
   ++ "&page=1&comptype=home"
   ++ "&sort=evdates_event_name&compsubject=location&last_id=-1"
   ++ "&caller=pro-CalendarService.getCalendarDayPage")%string.

Section Script.

Variable R : runtime.

(** str(v) *)
Definition py_str (v : pyval) : string :=
  match v with
  | PStr s => s
  | _ => repr R v
  end.

(** subprocess.run([sys.executable, script], capture_output=True, ...) *)
Definition subprocess_run (script : string) : M completed_process :=
  log (EvRun script) ;;;
  fun w =>
    let (cp, e') := run R script (w_env w) in
    (ok cp, mkworld e' (w_requests w) (w_trace w)).

(** requests.get(url, headers={"Cookie": cookie_header}, timeout=30) *)
Definition requests_get (url cookie_header : string) : M response :=
  log (EvGet url cookie_header) ;;;
  fun w =>
    (match http R (w_requests w) url cookie_header with
     | inl e => raise (RequestException e)
     | inr r => ok r
     end,
     mkworld (w_env w) (S (w_requests w)) (w_trace w)).

Definition _run_cookie_script : M unit :=
  script_path <- _find_cookie_script ;;
  res <- subprocess_run script_path ;;
  if negb (returncode res =? 0) then
    throw (RuntimeError
             ("Cookie extractor " ++ script_path ++ " failed with code "
              ++ Str.of_int (returncode res)))
  else ret tt.

Definition get_wssessionid : M pyval :=
  cookie <- _load_cookie_from_disk ;;
  if truthy cookie then ret cookie
  else
    cookie <- _load_cookie_from_search_results ;;
    if truthy cookie then ret cookie
    else
      _run_cookie_script ;;;
      cookie <- _load_cookie_from_disk ;;
      if negb (truthy cookie) then
        throw (RuntimeError
                 "Cookie file was not created by the extractor script")
      else ret cookie.

(** The inner loop of fetch_building_events: one record per location *)
Definition append_location (building_id day : string) (event : pyval)
    (location : pyval) (events : list EventRecord)
  : result (list EventRecord) :=
  rbind (py_get event "event_name" (PStr "")) (fun event_name =>
  rbind (py_get location "itemName" PNone) (fun item_name =>
  rbind (py_get event "rsrv_start_dt" PNone) (fun start =>
  rbind (py_get event "rsrv_end_dt" PNone) (fun stop =>
  ok (events ++ [mkevent (py_str event_name) item_name start stop
                         day building_id])%list)))).

(** The outer loop body: the locations of one reservation entry *)
Definition append_event (building_id day : string) (event : pyval)
    (events : list EventRecord) : result (list EventRecord) :=
  rbind (py_get event "subject" (PList [])) (fun subject =>
  rbind (py_iter subject) (fun locations =>
  for_each_r (append_location building_id day event) locations events)).

(** fetch_building_events after response.json() *)
Definition events_of_data (building_id day : string) (data : pyval)
  : result (list EventRecord) :=
  rbind (py_get data "root" (PDict [])) (fun root =>
  rbind (py_get root "events" (PList [PDict []])) (fun events0 =>
  rbind (py_index0 events0) (fun first =>
  rbind (py_get first "rsrv" PNone) (fun rsrv_entries =>
  if negb (truthy rsrv_entries) then ok []
  else
    rbind (py_iter rsrv_entries) (fun entries =>
    for_each_r (append_event building_id day) entries []))))).

Definition fetch_building_events (building_id day : string)
    (wssessionid : pyval) : M (list EventRecord) :=
  let url := get_url building_id day in
  got <- try_except
           (resp <- requests_get url
                      ("WSSESSIONID=" ++ py_str wssessionid)%string ;;
            lift (raise_for_status resp) ;;;
            ret (Some resp))
           is_RequestException
           (ret None) ;;
  match got with
  | None => ret []
  | Some resp =>
    parsed <- try_except
                (data <- lift (json_loads (body resp)) ;; ret (Some data))
                is_ValueError
                (ret None) ;;
    match parsed with
    | None => ret []
    | Some data => lift (events_of_data building_id day data)
    end
  end.

Definition get_current_week_events : M (list EventRecord) :=
  wssessionid <- get_wssessionid ;;
  lift (py_slice20 wssessionid) ;;;
  week <- get_current_week_dates ;;
  for_each
    (fun building_id all_events =>
       for_each
         (fun day all_events =>
            evs <- fetch_building_events building_id day wssessionid ;;
            sleep REQUEST_DELAY_SECONDS ;;;
            ret (all_events ++ evs)%list)
         week all_events)
    BUILDING_IDS [].

End Script.

(** ** Notions the properties are stated with *)

(** d.get(k, default) on the items of a dict *)
Definition get_default (k : string) (d : list (string * pyval))
    (default : pyval) : pyval :=
  match lookup k d with
  | Some x => x
  | None => default
  end.

(** The record built from reservation entry [e] and location [l] *)
Definition record_for (R : runtime) (building_id day : string)
    (e l : list (string * pyval)) : EventRecord :=
  mkevent (py_str R (get_default "event_name" e (PStr "")))
          (get_default "itemName" l PNone)
          (get_default "rsrv_start_dt" e PNone)
          (get_default "rsrv_end_dt" e PNone)
          day building_id.

(** The statuses raise_for_status rejects *)
Definition is_error_status (status : Z) : bool :=
  (400 <=? status) && (status <? 600).

(** What fetch_building_events returns for an answer of the service *)
Definition fetch_outcome (R : runtime) (building_id day : string)
    (o : request_error + response) : result (list EventRecord) :=
  match o with
  | inl _ => ok []
  | inr resp =>
      if is_error_status (status_code resp) then ok []
      else match body resp with
           | NotJson => ok []
           | Json data => events_of_data R building_id day data
           end
  end.

(** The Cookie header of a request *)
Definition cookie_header (R : runtime) (wssessionid : pyval) : string :=
  "WSSESSIONID=" ++ py_str R wssessionid.

(** The part of fetch_building_events that follows the lookup of the first
    element of "events" *)
Definition events_of_first (R : runtime) (building_id day : string)
    (first : pyval) : result (list EventRecord) :=
  rbind (py_get first "rsrv" PNone) (fun rsrv_entries =>
  if negb (truthy rsrv_entries) then ok []
  else
    rbind (py_iter rsrv_entries) (fun entries =>
    for_each_r (append_event R building_id day) entries [])).

(** The body of the inner loop of get_current_week_events, on a pair *)
Definition fetch_pair (R : runtime) (wssessionid : pyval)
    (p : string * string) (all_events : list EventRecord)
  : M (list EventRecord) :=
  evs <- fetch_building_events R (fst p) (snd p) wssessionid ;;
  sleep REQUEST_DELAY_SECONDS ;;;
  ret (all_events ++ evs)%list.

(** The effects of one iteration that returns *)
Definition fetch_effects (R : runtime) (wssessionid : pyval)
    (p : string * string) : list effect :=
  [EvGet (get_url (fst p) (snd p)) (cookie_header R wssessionid);
   EvSleep REQUEST_DELAY_SECONDS].

(** The outcome of the fetch for pair [p] when it is request number [n] *)
Definition outcome_at (R : runtime) (wssessionid : pyval) (n : nat)
    (p : string * string) : result (list EventRecord) :=
  fetch_outcome R (fst p) (snd p)
    (http R n (get_url (fst p) (snd p)) (cookie_header R wssessionid)).

(** The outcomes of a run over [ps] that starts at request number [n] *)
Fixpoint outcomes (R : runtime) (wssessionid : pyval) (n : nat)
    (ps : list (string * string)) : list (result (list EventRecord)) :=
  match ps with
  | [] => []
  | p :: ps' => outcome_at R wssessionid n p :: outcomes R wssessionid (S n) ps'
  end.

(** Effects of the first tier: the credential file and the clock *)
Definition disk_effect (e : effect) : Prop :=
  match e with
  | EvExists f | EvReadText f => f = COOKIE_FILE
  | EvNow => True
  | _ => False
  end.

(** Effects of the second tier: the peer-capture file *)
Definition peer_effect (e : effect) : Prop :=
  match e with
  | EvExists f | EvReadText f => f = SEARCH_COOKIES_FILE
  | _ => False
  end.

(** Effects of the credential chain as a whole *)
Definition credential_effect (e : effect) : Prop :=
  match e with
  | EvExists _ | EvReadText _ | EvNow | EvRun _ => True
  | _ => False
  end.

(** A statement adds only effects satisfying [P] to the trace *)
Definition emits (P : effect -> Prop) {A} (c : M A) : Prop :=
  forall w, exists t,
    w_trace (snd (c w)) = (w_trace w ++ t)%list /\ Forall P t.

(** A statement that, besides, leaves the files, the clock and the request
    count as they are *)
Definition frames (P : effect -> Prop) {A} (c : M A) : Prop :=
  forall w, exists t,
    w_trace (snd (c w)) = (w_trace w ++ t)%list /\ Forall P t /\
    w_env (snd (c w)) = w_env w /\ w_requests (snd (c w)) = w_requests w.


(** Path.exists() in an environment *)
Definition file_exists (e : env) (f : string) : bool :=
  match fs e f with Missing => false | _ => true end.

(** The first candidate that exists *)
Definition find_script (e : env) : option string :=
  List.find (file_exists e) extractor_candidates.

Definition is_run (e : effect) : bool :=
  match e with EvRun _ => true | _ => false end.

(** The number of extractor runs in a trace *)
Definition count_runs (t : list effect) : nat :=
  List.length (filter is_run t).

(** A test that holds on every integer of [lo, lo + len), checked by
    halving the interval [depth] times *)
Fixpoint check_range (test : Z -> bool) (depth : nat) (lo len : Z) : bool :=
  match depth with
  | O => (len <=? 0) || ((len =? 1) && test lo)
  | S d =>
      let h := len / 2 in
      check_range test d lo h && check_range test d (lo + h) (len - h)
  end.

(** Day [r + 1] of the first 400 years: _ord2ymd gives a date of the
    calendar whose ordinal is [r + 1] *)
Definition cycle_ok (r : Z) : bool :=
  let d := Calendar.ord2ymd (r + 1) in
  (Calendar.ymd2ord (Calendar.year d) (Calendar.month d) (Calendar.day d)
   =? r + 1) &&
  (1 <=? Calendar.year d) && (Calendar.year d <=? 400) &&
  (1 <=? Calendar.month d) && (Calendar.month d <=? 12) &&
  (1 <=? Calendar.day d) &&
  (Calendar.day d <=? Calendar.days_in_month (Calendar.year d) (Calendar.month d)).

Definition shift_years (q : Z) (d : Calendar.date) : Calendar.date :=
  Calendar.mkdate (Calendar.year d + 400 * q) (Calendar.month d)
                  (Calendar.day d).

(** Month and day are those of a calendar date *)
Definition well_formed (d : Calendar.date) : Prop :=
  1 <= Calendar.month d <= 12 /\
  1 <= Calendar.day d <= Calendar.days_in_month (Calendar.year d)
                                                (Calendar.month d).

(** The field "%0wd" % n has [w] characters and reads back as [n] *)
Definition zfill_ok (w : nat) (n : Z) : bool :=
  Nat.eqb (String.length (Str.zfill w n)) w &&
  match Str.parse_digits w (Str.zfill w n) with
  | Some m => m =? n
  | None => false
  end.

(** The last day whose week ends within date.max: Sunday 9999-12-26 *)
Definition last_full_week_day : Calendar.date := Calendar.mkdate 9999 12 26.

(** Midnight of a date, naive *)
Definition midnight (d : Calendar.date) : DT.datetime :=
  DT.mkdt d 0 0 0 0 None.

(** ** Sample worlds, for the instances of the properties *)

Definition sample_fs (cookie search : file_state) (extractor1 extractor2 : bool)
  : string -> file_state :=
  fun f =>
    if String.eqb f COOKIE_FILE then cookie
    else if String.eqb f SEARCH_COOKIES_FILE then search
    else if String.eqb f "cmu25live_extractor.py"
         then (if extractor1 then Content NotJson else Missing)
    else if String.eqb f "cmu_25live_search_cookie_extractor.py"
         then (if extractor2 then Content NotJson else Missing)
    else Missing.

Definition sample_world (cookie search : file_state)
    (extractor1 extractor2 : bool) (n : DT.datetime) (requests : nat)
  : world :=
  mkworld (mkenv (sample_fs cookie search extractor1 extractor2) n)
          requests [].

(** {"WSSESSIONID": "abc123", "extracted_at": ts} *)
Definition cookie_record (ts : string) : file_state :=
  Content (Json (PDict [("WSSESSIONID", PStr "abc123");
                        ("extracted_at", PStr ts)])).

(** {"athletics": {"cookies": cookies}} *)
Definition capture_record (cookies : string) : file_state :=
  Content (Json (PDict [("athletics", PDict [("cookies", PStr cookies)])])).

(** Monday 2025-03-10, 12:00 *)
Definition noon : DT.datetime :=
  DT.mkdt (Calendar.mkdate 2025 3 10) 12 0 0 0 None.

Definition entry_two_rooms : list (string * pyval) :=
  [("event_name", PStr "Seminar");
   ("rsrv_start_dt", PStr "2025-03-10T09:00:00");
   ("rsrv_end_dt", PStr "2025-03-10T10:00:00");
   ("subject", PList [PDict [("itemName", PStr "Room A")];
                      PDict [("itemName", PStr "Room B")]])].

Definition entry_no_room : list (string * pyval) :=
  [("event_name", PStr "Cancelled")].

Definition entry_elsewhere : list (string * pyval) :=
  [("event_name", PStr "Elsewhere");
   ("subject", PList [PDict [("itemName", PStr "Room C")]])].

Definition first_element : pyval :=
  PDict [("rsrv", PList [PDict entry_two_rooms; PDict entry_no_room])].

(** A calendar page whose "events" list has two elements *)
Definition body_two_elements : pyval :=
  PDict [("root", PDict [("events",
    PList [first_element;
           PDict [("rsrv", PList [PDict entry_elsewhere])]])])].

(** The same page with the first element alone *)
Definition body_one_element : pyval :=
  PDict [("root", PDict [("events", PList [first_element])])].

(** {"root": {"events": []}} *)
Definition body_empty_events : pyval :=
  PDict [("root", PDict [("events", PList [])])].

(** An extractor that succeeds and stores a credential one minute old at
    noon; a service that answers [http] *)
Definition sample_runtime
    (http : nat -> string -> string -> request_error + response) : runtime :=
  mkruntime
    (fun _ => "")
    (fun _ e =>
       (mkcp 0 "" "",
        mkenv (fun f => if String.eqb f COOKIE_FILE
                        then cookie_record "2025-03-10T11:59:00"
                        else fs e f)
              (now e)))
    http.

Definition answer (status : Z) (data : pyval) : request_error + response :=
  inr (mkresp status (Json data)).

(** The same answer to every request *)
Definition http_const (o : request_error + response)
  : nat -> string -> string -> request_error + response :=
  fun _ _ _ => o.

(** The page with two elements first, the page with one element after *)
Definition http_two_pages
  : nat -> string -> string -> request_error + response :=
  fun n _ _ =>
    match n with
    | O => answer 200 body_two_elements
    | _ => answer 200 body_one_element
    end.

(** A week in which the first three requests fail, the fourth finds the
    seminar and the others find nothing *)
Definition http_week : nat -> string -> string -> request_error + response :=
  fun n _ _ =>
    match n with
    | 0%nat => inl Timeout
    | 1%nat => inr (mkresp 500 NotJson)
    | 2%nat => inr (mkresp 200 NotJson)
    | 3%nat => answer 200 body_two_elements
    | _ => answer 200 (PDict [("root", PDict [])])
    end.

Definition fresh_world : world :=
  sample_world (cookie_record "2025-03-10T00:01:00") Missing true false noon 0.

Definition stale_world : world :=
  sample_world (cookie_record "2025-03-09T23:59:00")
               (capture_record "A=1; WSSESSIONID=abc123; B=2")
               true false noon 0.


(** The stored timestamp ends in Z *)
Definition zulu_world : world :=
  sample_world (cookie_record "2025-03-10T10:00:00Z") Missing true false noon 0.

Definition last_day_world : world :=
  sample_world Missing Missing true false
    (DT.mkdt (Calendar.mkdate 9999 12 31) 12 0 0 0 None) 0.

(** ** The output file and the entry point *)

Definition DEFAULT_OUTPUT_FILE : string := "thisWeeksEvents.json".

(** The dict of a record, with its keys in the order of the literal *)
Definition event_dict (r : EventRecord) : pyval :=
  PDict [("name", PStr (name r));
         ("location", location r);
         ("startTime", startTime r);
         ("endTime", endTime r);
         ("date", PStr (date r));
         ("buildingID", PStr (buildingID r))].

(** The environment after a file received a text *)
Definition with_file (e : env) (file : string) (c : content) : env :=
  mkenv (fun f => if String.eqb f file then Content c else fs e f) (now e).

(** filename.write_text(json.dumps(v, indent=2)): the file, created when
    missing, then holds a text that json.loads reads as [v]; a path that
    cannot be opened (a directory, a file without permissions: the state
    [Unreadable]) raises OSError and is left alone.  The write shows in the
    file system, not in the trace. *)
Definition write_json (file : string) (v : pyval) : M unit :=
  fun w =>
    match fs (w_env w) file with
    | Unreadable => (raise OSError, w)
    | _ => (ok tt,
            mkworld (with_file (w_env w) file (Json v))
                    (w_requests w) (w_trace w))
    end.

Definition save_events_to_file (events : list EventRecord)
    (filename : string) : M unit :=
  match events with
  | [] => ret tt
  | _ => write_json filename (PList (map event_dict events))
  end.

(** main, as the exit status of the process: every exception of the run
    is caught and turned into sys.exit(1). *)
Definition main (R : runtime) : world -> Z * world :=
  fun w =>
    match (events <- get_current_week_events R ;;
           match events with
           | [] => ret tt
           | _ => save_events_to_file events DEFAULT_OUTPUT_FILE
           end) w with
    | (inr _, w') => (0, w')
    | (inl _, w') => (1, w')
    end.

(** A world without extractor, store or capture file *)
Definition bare_world : world :=
  sample_world Missing Missing false false noon 0.

(** A world whose store holds a JSON number as token *)
Definition number_token_world : world :=
  sample_world
    (Content (Json (PDict [("WSSESSIONID", PInt 42);
                           ("extracted_at", PStr "2025-03-10T11:00:00")])))
    Missing true false noon 0.

(** A service whose second answer has an empty "events" list *)
Definition http_breaks_second
  : nat -> string -> string -> request_error + response :=
  fun n _ _ =>
    match n with
    | O => answer 200 body_two_elements
    | _ => answer 200 body_empty_events
    end.

(** An extractor that exits with status 2 *)
Definition failing_runtime : runtime :=
  mkruntime (fun _ => "") (fun _ e => (mkcp 2 "" "boom", e)) http_week.

(** An extractor that exits with status 0 and stores nothing *)
Definition idle_runtime : runtime :=
  mkruntime (fun _ => "") (fun _ e => (mkcp 0 "" "", e)) http_week.

(** * Properties *)

(** ** The calendar *)

Section CalendarFacts.
Import Calendar DT.

Lemma is_leap_shift y q : is_leap (y + 400 * q) = is_leap y.
Proof.
  unfold is_leap.
  replace ((y + 400 * q) mod 4) with (y mod 4)
    by (symmetry; replace (y + 400 * q) with (y + (100 * q) * 4) by lia;
        apply Z.mod_add; lia).
  replace ((y + 400 * q) mod 100) with (y mod 100)
    by (symmetry; replace (y + 400 * q) with (y + (4 * q) * 100) by lia;
        apply Z.mod_add; lia).
  replace ((y + 400 * q) mod 400) with (y mod 400)
    by (symmetry; replace (y + 400 * q) with (y + q * 400) by lia;
        apply Z.mod_add; lia).
  reflexivity.
Qed.

Lemma days_before_year_shift y q :
  days_before_year (y + 400 * q) = days_before_year y + DI400Y * q.
Proof.
  unfold days_before_year, DI400Y. cbv zeta.
  Z.div_mod_to_equations. lia.
Qed.

Lemma days_before_year_succ y :
  days_before_year (y + 1) = days_before_year y + 365 + b2z (is_leap y).
Proof.
  unfold days_before_year, is_leap, b2z. cbv zeta.
  replace (y + 1 - 1) with y by lia.
  destruct (y mod 4 =? 0) eqn:E4; destruct (y mod 100 =? 0) eqn:E100;
    destruct (y mod 400 =? 0) eqn:E400; simpl;
    rewrite ?Z.eqb_eq, ?Z.eqb_neq in *; Z.div_mod_to_equations; lia.
Qed.

Lemma days_before_year_mono y y' :
  y <= y' -> days_before_year y <= days_before_year y'.
Proof.
  unfold days_before_year. cbv zeta. intros H.
  Z.div_mod_to_equations. lia.
Qed.

Lemma check_range_sound test depth : forall lo len,
  check_range test depth lo len = true ->
  forall j, lo <= j < lo + len -> test j = true.
Proof.
  induction depth as [|d IH]; intros lo len H j Hj.
  - simpl in H. apply orb_true_iff in H as [H|H].
    + apply Z.leb_le in H. lia.
    + apply andb_true_iff in H as [H1 H2]. apply Z.eqb_eq in H1.
      replace j with lo by lia. exact H2.
  - simpl in H. apply andb_true_iff in H as [H1 H2].
    destruct (Z_lt_ge_dec j (lo + len / 2)) as [Hlt|Hge].
    + apply (IH _ _ H1). lia.
    + apply (IH _ _ H2). lia.
Qed.

(** Every day of the 400-year cycle passes the test, by evaluation. *)
Lemma cycle_checked : check_range cycle_ok 18 0 DI400Y = true.
Proof. vm_cast_no_check (eq_refl true). Qed.

Lemma cycle_ok_all r : 0 <= r < DI400Y -> cycle_ok r = true.
Proof.
  intros Hr. exact (check_range_sound cycle_ok _ _ _ cycle_checked r Hr).
Qed.

Lemma cycle_ok_elim r :
  cycle_ok r = true ->
  let d := ord2ymd (r + 1) in
  ymd2ord (year d) (month d) (day d) = r + 1 /\
  1 <= year d <= 400 /\ 1 <= month d <= 12 /\
  1 <= day d <= days_in_month (year d) (month d).
Proof.
  unfold cycle_ok. cbv zeta. intros Hc.
  repeat (apply andb_true_iff in Hc as [Hc ?]).
  rewrite Z.eqb_eq in Hc. rewrite !Z.leb_le in *. lia.
Qed.

(** _ord2ymd repeats every 400 years. *)
Lemma ord2ymd_cycle q r :
  0 <= r < DI400Y ->
  ord2ymd (1 + DI400Y * q + r) = shift_years q (ord2ymd (r + 1)).
Proof.
  intros Hr. unfold ord2ymd. cbv zeta.
  replace (1 + DI400Y * q + r - 1) with (r + q * DI400Y) by lia.
  replace (r + 1 - 1) with r by lia.
  rewrite Z.div_add by (unfold DI400Y; lia).
  rewrite Z.mod_add by (unfold DI400Y; lia).
  rewrite (Z.div_small r DI400Y) by lia.
  rewrite (Z.mod_small r DI400Y) by lia.
  unfold shift_years.
  repeat match goal with
         | |- context [if ?b then _ else _] => destruct b
         end; cbn [year month day]; f_equal; lia.
Qed.

Lemma ymd2ord_shift q y m d :
  ymd2ord (y + 400 * q) m d = ymd2ord y m d + DI400Y * q.
Proof.
  unfold ymd2ord, days_before_month.
  rewrite days_before_year_shift, is_leap_shift. lia.
Qed.

Lemma days_in_month_shift q y m :
  days_in_month (y + 400 * q) m = days_in_month y m.
Proof. unfold days_in_month. now rewrite is_leap_shift. Qed.

(** fromordinal is a right inverse of toordinal. *)
Lemma fromordinal_spec n :
  1 <= n ->
  let d := fromordinal n in
  toordinal d = n /\ 1 <= year d /\ 1 <= month d <= 12 /\
  1 <= day d <= days_in_month (year d) (month d).
Proof.
  intros Hn. cbv zeta. unfold fromordinal, toordinal.
  pose proof (Z.div_mod (n - 1) DI400Y ltac:(discriminate)) as Hdm.
  pose proof (Z.mod_pos_bound (n - 1) DI400Y ltac:(reflexivity)) as Hb.
  assert (Hq : 0 <= (n - 1) / DI400Y)
    by (apply Z.div_pos; unfold DI400Y; lia).
  generalize dependent ((n - 1) / DI400Y).
  generalize dependent ((n - 1) mod DI400Y).
  intros r Hr q Hdm Hq.
  replace n with (1 + DI400Y * q + r) by lia.
  rewrite ord2ymd_cycle by lia.
  pose proof (cycle_ok_elim r (cycle_ok_all r Hr)) as Hc. cbv zeta in Hc.
  unfold shift_years; cbn [year month day].
  rewrite ymd2ord_shift, days_in_month_shift. lia.
Qed.

Lemma month_cases m : 1 <= m <= 12 ->
  m = 1 \/ m = 2 \/ m = 3 \/ m = 4 \/ m = 5 \/ m = 6 \/
  m = 7 \/ m = 8 \/ m = 9 \/ m = 10 \/ m = 11 \/ m = 12.
Proof. lia. Qed.

Ltac split_month H :=
  apply month_cases in H;
  repeat (destruct H as [H|H]); subst.

Lemma in_year_bounds y m d :
  1 <= m <= 12 -> 1 <= d <= days_in_month y m ->
  1 <= days_before_month y m + d <= 365 + b2z (is_leap y).
Proof.
  intros Hm Hd. unfold days_before_month, days_in_month in *.
  split_month Hm; destruct (is_leap y); cbn -[Z.add Z.sub Z.mul] in *; lia.
Qed.

Lemma in_year_inj y m1 d1 m2 d2 :
  1 <= m1 <= 12 -> 1 <= d1 <= days_in_month y m1 ->
  1 <= m2 <= 12 -> 1 <= d2 <= days_in_month y m2 ->
  days_before_month y m1 + d1 = days_before_month y m2 + d2 ->
  m1 = m2 /\ d1 = d2.
Proof.
  intros Hm1 Hd1 Hm2 Hd2. unfold days_before_month, days_in_month in *.
  split_month Hm1; split_month Hm2; destruct (is_leap y);
    cbn -[Z.add Z.sub Z.mul] in *; lia.
Qed.

Lemma days_in_month_le_31 y m : 1 <= m <= 12 -> days_in_month y m <= 31.
Proof.
  intros H. unfold days_in_month.
  split_month H; destruct (is_leap y); cbn; lia.
Qed.

Lemma toordinal_year_lt d1 d2 :
  well_formed d1 -> well_formed d2 -> year d1 < year d2 ->
  toordinal d1 < toordinal d2.
Proof.
  intros [Hm1 Hd1] [Hm2 Hd2] Hy. unfold toordinal, ymd2ord.
  pose proof (in_year_bounds _ _ _ Hm1 Hd1).
  pose proof (in_year_bounds _ _ _ Hm2 Hd2).
  pose proof (days_before_year_succ (year d1)).
  pose proof (days_before_year_mono (year d1 + 1) (year d2) ltac:(lia)).
  lia.
Qed.

(** Two calendar dates with the same ordinal are the same date. *)
Lemma toordinal_inj d1 d2 :
  well_formed d1 -> well_formed d2 ->
  toordinal d1 = toordinal d2 -> d1 = d2.
Proof.
  intros W1 W2 E.
  assert (Hy : year d1 = year d2).
  { destruct (Z.lt_trichotomy (year d1) (year d2)) as [L|[L|L]]; [|exact L|].
    - pose proof (toordinal_year_lt _ _ W1 W2 L). lia.
    - pose proof (toordinal_year_lt _ _ W2 W1 L). lia. }
  destruct d1 as [y1 m1 dd1], d2 as [y2 m2 dd2].
  unfold well_formed, toordinal, ymd2ord in *. cbn [year month day] in *.
  subst y2. destruct W1 as [Hm1 Hd1], W2 as [Hm2 Hd2].
  destruct (in_year_inj y1 m1 dd1 m2 dd2 Hm1 Hd1 Hm2 Hd2 ltac:(lia))
    as [-> ->].
  reflexivity.
Qed.

Lemma valid_date_elim d :
  valid_date d = true ->
  1 <= year d <= 9999 /\ well_formed d.
Proof.
  unfold valid_date, well_formed, MINYEAR, MAXYEAR. intros H.
  repeat (apply andb_true_iff in H as [H ?]).
  rewrite !Z.leb_le in *. lia.
Qed.

Lemma toordinal_range d :
  valid_date d = true -> 1 <= toordinal d <= MAXORDINAL.
Proof.
  intros H. apply valid_date_elim in H as [Hy [Hm Hd]].
  pose proof (in_year_bounds _ _ _ Hm Hd) as Hb.
  pose proof (days_before_year_mono 1 (year d) ltac:(lia)) as H1.
  pose proof (days_before_year_mono (year d + 1) 10000 ltac:(lia)) as H2.
  rewrite days_before_year_succ in H2.
  change (days_before_year 1) with 0 in H1.
  change (days_before_year 10000) with 3652059 in H2.
  unfold toordinal, ymd2ord, MAXORDINAL. lia.
Qed.

Lemma fromordinal_valid n :
  1 <= n <= MAXORDINAL ->
  valid_date (fromordinal n) = true /\ toordinal (fromordinal n) = n.
Proof.
  intros Hn. destruct (fromordinal_spec n ltac:(lia)) as (Ho & Hy & Hm & Hd).
  split; [|exact Ho].
  assert (Hy' : year (fromordinal n) <= 9999).
  { destruct (Z_le_gt_dec (year (fromordinal n)) 9999) as [L|G]; [exact L|].
    exfalso.
    pose proof (toordinal_year_lt (mkdate 9999 12 31) (fromordinal n)
                  ltac:(split; cbn; lia) ltac:(split; assumption)
                  ltac:(cbn [year]; lia)) as Hlt.
    change (toordinal (mkdate 9999 12 31)) with 3652059 in Hlt.
    unfold MAXORDINAL in Hn. lia. }
  unfold valid_date, MINYEAR, MAXYEAR.
  repeat (apply andb_true_iff; split); apply Z.leb_le; lia.
Qed.

Lemma fromordinal_toordinal d :
  valid_date d = true -> fromordinal (toordinal d) = d.
Proof.
  intros H. pose proof (toordinal_range d H) as Hr.
  destruct (fromordinal_valid _ Hr) as [Hv Ho].
  apply toordinal_inj; [| |exact Ho];
    [apply valid_date_elim in Hv|apply valid_date_elim in H]; tauto.
Qed.

Lemma weekday_range d : 0 <= weekday d <= 6.
Proof.
  unfold weekday. pose proof (Z.mod_pos_bound (toordinal d + 6) 7). lia.
Qed.

Lemma get_current_week_dates_run w :
  get_current_week_dates w =
  (week_dates (dt_date (now (w_env w))),
   mkworld (w_env w) (w_requests w) (w_trace w ++ [EvToday])).
Proof. reflexivity. Qed.

(** While the Sunday of the week is a date, the function returns the seven
    days from Monday on. *)
Lemma week_dates_ok today :
  valid_date today = true ->
  toordinal today - weekday today + 6 <= MAXORDINAL ->
  week_dates today =
  ok (map (fun i =>
             isoformat (fromordinal (toordinal today - weekday today + i)))
          range7).
Proof.
  intros Hv Hmax.
  pose proof (toordinal_range today Hv) as Hr.
  pose proof (weekday_range today) as Hw.
  assert (Hmon : 1 <= toordinal today - weekday today).
  { unfold weekday in *. Z.div_mod_to_equations. lia. }
  set (o := toordinal today - weekday today) in *.
  unfold week_dates, date_sub_days, date_add_days.
  replace (toordinal today + - weekday today) with o by (unfold o; lia).
  replace ((0 <? o) && (o <=? MAXORDINAL)) with true
    by (symmetry; apply andb_true_iff; split;
        [apply Z.ltb_lt|apply Z.leb_le]; lia).
  cbn [rbind ok].
  destruct (fromordinal_valid o ltac:(lia)) as [_ Ho]. rewrite Ho.
  unfold range7. cbn [for_each_r map].
  repeat match goal with
  | |- context [(0 <? o + ?i) && (o + ?i <=? MAXORDINAL)] =>
      replace ((0 <? o + i) && (o + i <=? MAXORDINAL)) with true
        by (symmetry; apply andb_true_iff; split;
            [apply Z.ltb_lt|apply Z.leb_le]; lia);
      cbn [rbind ok raise app]
  end.
  reflexivity.
Qed.

Lemma zfill4_checked : check_range (zfill_ok 4) 14 0 10000 = true.
Proof. vm_cast_no_check (eq_refl true). Qed.

Lemma zfill2_checked : check_range (zfill_ok 2) 7 0 100 = true.
Proof. vm_cast_no_check (eq_refl true). Qed.

Lemma zfill_ok_elim w n :
  zfill_ok w n = true ->
  String.length (Str.zfill w n) = w /\
  Str.parse_digits w (Str.zfill w n) = Some n.
Proof.
  unfold zfill_ok. intros H. apply andb_true_iff in H as [H1 H2].
  apply Nat.eqb_eq in H1. split; [exact H1|].
  destruct (Str.parse_digits w (Str.zfill w n)); [|discriminate H2].
  apply Z.eqb_eq in H2. now subst.
Qed.

Lemma length4 s : String.length s = 4%nat ->
  exists a b c d, s = String a (String b (String c (String d ""))).
Proof.
  do 4 (destruct s as [|? s]; [discriminate|]).
  destruct s; [eauto|discriminate].
Qed.

Lemma length2 s : String.length s = 2%nat ->
  exists a b, s = String a (String b "").
Proof.
  do 2 (destruct s as [|? s]; [discriminate|]).
  destruct s; [eauto|discriminate].
Qed.

(** The string date.isoformat gives for a date reads back, with
    fromisoformat, as the midnight of that date. *)
Lemma fromisoformat_isoformat d :
  valid_date d = true ->
  fromisoformat (isoformat d) = Some (midnight d).
Proof.
  intros Hv. pose proof (valid_date_elim d Hv) as (Hy & Hm & Hd).
  assert (Hd' : day d <= 31).
  { pose proof (days_in_month_le_31 (year d) (month d) Hm). lia. }
  destruct (zfill_ok_elim 4 (year d)
    (check_range_sound _ _ _ _ zfill4_checked (year d) ltac:(lia)))
    as [Ly Py].
  destruct (zfill_ok_elim 2 (month d)
    (check_range_sound _ _ _ _ zfill2_checked (month d) ltac:(lia)))
    as [Lm Pm].
  destruct (zfill_ok_elim 2 (day d)
    (check_range_sound _ _ _ _ zfill2_checked (day d) ltac:(lia)))
    as [Ld Pd].
  unfold isoformat, midnight.
  destruct (length4 _ Ly) as (y1 & y2 & y3 & y4 & Ey).
  destruct (length2 _ Lm) as (m1 & m2 & Em).
  destruct (length2 _ Ld) as (d1 & d2 & Ed).
  rewrite Ey in *. rewrite Em in *. rewrite Ed in *.
  unfold fromisoformat, parse_isoformat_date.
  cbn [append Str.take Str.drop substring String.get Str.nonempty].
  rewrite Py, Pm, Pd.
  unfold valid_datetime. cbn [dt_date hour minute second microsecond].
  destruct d as [y m dd]. cbn [year month day] in *. rewrite Hv. reflexivity.
Qed.

(** The arithmetic of the Monday of a week *)
Lemma monday_ordinal today :
  valid_date today = true ->
  toordinal today <= toordinal last_full_week_day ->
  let o := toordinal today - weekday today in
  1 <= o /\ o + 6 <= MAXORDINAL /\ (o + 6) mod 7 = 0.
Proof.
  intros Hv Hlast o.
  change (toordinal last_full_week_day) with 3652054 in Hlast.
  pose proof (toordinal_range today Hv) as Hr.
  unfold o, MAXORDINAL, weekday in *. Z.div_mod_to_equations. lia.
Qed.

Lemma get_current_week_dates_ok w :
  let today := dt_date (now (w_env w)) in
  valid_date today = true ->
  toordinal today - weekday today + 6 <= MAXORDINAL ->
  fst (get_current_week_dates w) =
  ok (map isoformat
          (map (fun i => fromordinal (toordinal today - weekday today + i))
               range7)).
Proof.
  intros today Hv Hmax.
  rewrite get_current_week_dates_run. cbn [fst]. fold today.
  rewrite (week_dates_ok today Hv) by lia.
  now rewrite map_map.
Qed.

Lemma today_in_week today :
  valid_date today = true ->
  today = fromordinal (toordinal today - weekday today + weekday today).
Proof.
  intros Hv.
  replace (toordinal today - weekday today + weekday today)
    with (toordinal today) by lia.
  symmetry. apply fromordinal_toordinal, Hv.
Qed.

(** Seven dates with consecutive ordinals from a Monday on *)
Lemma seven_days (f : Z -> date) (o : Z) (today : date) :
  (forall i, 0 <= i <= 6 ->
     valid_date (f i) = true /\ toordinal (f i) = o + i) ->
  today = f (weekday today) ->
  (o + 6) mod 7 = 0 ->
  let ds := map f range7 in
  List.length ds = 7%nat /\
  Forall (fun d => valid_date d = true /\
                   fromisoformat (isoformat d) = Some (midnight d)) ds /\
  (forall i d, nth_error ds i = Some d ->
     toordinal d = toordinal (hd today ds) + Z.of_nat i) /\
  weekday (hd today ds) = 0 /\
  In today ds.
Proof.
  intros Hord Htoday Hmon ds. subst ds.
  pose proof (weekday_range today) as Hw.
  split; [reflexivity|].
  unfold range7. cbn [map hd].
  split; [|split; [|split]].
  - repeat (apply Forall_cons;
            [split; [apply Hord; lia
                    |apply fromisoformat_isoformat, Hord; lia]|]).
    apply Forall_nil.
  - intros i d Hi. rewrite (proj2 (Hord 0 ltac:(lia))).
    do 7 (destruct i as [|i];
          [injection Hi as <-;
           match goal with
           | |- toordinal (f ?k) = _ =>
               rewrite (proj2 (Hord k ltac:(lia)))
           end; lia|]).
    destruct i; discriminate Hi.
  - unfold weekday at 1. rewrite (proj2 (Hord 0 ltac:(lia))).
    rewrite Z.add_0_r. exact Hmon.
  - rewrite Htoday at 1.
    assert (Hc : weekday today = 0 \/ weekday today = 1 \/
                 weekday today = 2 \/ weekday today = 3 \/
                 weekday today = 4 \/ weekday today = 5 \/
                 weekday today = 6) by lia.
    cbn [In]. repeat (destruct Hc as [Hc|Hc]; [rewrite Hc; tauto|]).
    rewrite Hc; tauto.
Qed.

(** C9, as amended: for every today up to 9999-12-26, the Time Window
    Resolver returns the ISO strings of exactly seven dates; each string
    reads back as its date, the dates are consecutive, the first is a
    Monday, and today is among them. *)
Theorem week_dates_monday_to_sunday w :
  let today := dt_date (now (w_env w)) in
  valid_date today = true ->
  toordinal today <= toordinal last_full_week_day ->
  exists ds,
    fst (get_current_week_dates w) = ok (map isoformat ds) /\
    List.length ds = 7%nat /\
    Forall (fun d => valid_date d = true /\
                     fromisoformat (isoformat d) = Some (midnight d)) ds /\
    (forall i d, nth_error ds i = Some d ->
       toordinal d = toordinal (hd today ds) + Z.of_nat i) /\
    weekday (hd today ds) = 0 /\
    In today ds.
Proof.
  intros today Hv Hlast.
  destruct (monday_ordinal today Hv Hlast) as (Ho1 & Ho2 & Hmon).
  exists (map (fun i => fromordinal (toordinal today - weekday today + i))
              range7).
  split.
  - apply (get_current_week_dates_ok w Hv Ho2).
  - apply (seven_days _ (toordinal today - weekday today) today).
    + intros i Hi. apply fromordinal_valid. lia.
    + apply today_in_week, Hv.
    + exact Hmon.
Qed.

(** An instance of C9: on Monday 2025-03-10 the week runs to 2025-03-16. *)
Lemma week_dates_monday_to_sunday_witness :
  exists ds,
    fst (get_current_week_dates fresh_world) = ok (map isoformat ds) /\
    List.length ds = 7%nat /\
    Forall (fun d => valid_date d = true /\
                     fromisoformat (isoformat d) = Some (midnight d)) ds /\
    (forall i d, nth_error ds i = Some d ->
       toordinal d =
       toordinal (hd (dt_date (now (w_env fresh_world))) ds) + Z.of_nat i) /\
    weekday (hd (dt_date (now (w_env fresh_world))) ds) = 0 /\
    In (dt_date (now (w_env fresh_world))) ds.
Proof.
  apply (week_dates_monday_to_sunday fresh_world).
  - reflexivity.
  - vm_compute. discriminate.
Defined.

(** X21: for every valid today after 9999-12-26 the function raises
    OverflowError, the Sunday of the week being past date.max: the bound
    of the week theorem is the exact one. *)
Lemma week_dates_last_week_raises today :
  valid_date today = true ->
  toordinal last_full_week_day < toordinal today ->
  week_dates today = raise OverflowError.
Proof.
  intros Hv Hlast.
  change (toordinal last_full_week_day) with 3652054 in Hlast.
  pose proof (toordinal_range today Hv) as Hr.
  assert (Ho : toordinal today + - weekday today = 3652055).
  { unfold MAXORDINAL, weekday in *. Z.div_mod_to_equations. lia. }
  unfold week_dates, date_sub_days, date_add_days. rewrite Ho.
  vm_compute. reflexivity.
Qed.

(** C9 as stated fails on the last days of year 9999: today is a date,
    the Sunday of its week is past date.max, and the addition raises. *)
Lemma week_dates_overflow :
  valid_date (dt_date (now (w_env last_day_world))) = true /\
  fst (get_current_week_dates last_day_world) = raise OverflowError.
Proof. split; vm_compute; reflexivity. Qed.

End CalendarFacts.

(** ** Statements and their effects *)

Import DT.

Lemma bind_ok {A B} (c : M A) (k : A -> M B) w a w1 :
  c w = (ok a, w1) -> bind c k w = k a w1.
Proof. intros E. unfold bind. rewrite E. reflexivity. Qed.

Lemma bind_raise {A B} (c : M A) (k : A -> M B) w e w1 :
  c w = (raise e, w1) -> bind c k w = (raise e, w1).
Proof. intros E. unfold bind. rewrite E. reflexivity. Qed.

Section Frames.
Variable P : effect -> Prop.

Lemma frames_ret {A} (a : A) : frames P (ret a).
Proof. intros w. exists []. cbn. rewrite app_nil_r. auto. Qed.

Lemma frames_throw {A} (e : exn) : frames P (@throw A e).
Proof. intros w. exists []. cbn. rewrite app_nil_r. auto. Qed.

Lemma frames_lift {A} (r : result A) : frames P (lift r).
Proof. intros w. exists []. cbn. rewrite app_nil_r. auto. Qed.

Lemma frames_read {A} (f : world -> result A) : frames P (fun w => (f w, w)).
Proof. intros w. exists []. cbn. rewrite app_nil_r. auto. Qed.

Lemma frames_log (e : effect) : P e -> frames P (log e).
Proof. intros He w. exists [e]. cbn. auto. Qed.

Lemma frames_bind {A B} (c : M A) (k : A -> M B) :
  frames P c -> (forall a, frames P (k a)) -> frames P (bind c k).
Proof.
  intros Hc Hk w. unfold bind.
  destruct (Hc w) as (t & Ht & HP & He & Hn).
  destruct (c w) as [[e|a] w1]; cbn [snd] in *.
  - exists t. auto.
  - destruct (Hk a w1) as (t' & Ht' & HP' & He' & Hn').
    exists (t ++ t')%list. rewrite Ht', Ht, He', Hn', app_assoc.
    repeat split; auto. apply Forall_app; auto.
Qed.

Lemma frames_try_except {A} (c : M A) handles (h : M A) :
  frames P c -> frames P h -> frames P (try_except c handles h).
Proof.
  intros Hc Hh w. unfold try_except.
  destruct (Hc w) as (t & Ht & HP & He & Hn).
  destruct (c w) as [[e|a] w1]; cbn [snd] in *.
  - destruct (handles e).
    + destruct (Hh w1) as (t' & Ht' & HP' & He' & Hn').
      exists (t ++ t')%list. rewrite Ht', Ht, He', Hn', app_assoc.
      repeat split; auto. apply Forall_app; auto.
    + exists t. auto.
  - exists t. auto.
Qed.

Lemma emits_frames {A} (Q : effect -> Prop) (c : M A) :
  (forall e, Q e -> P e) -> frames Q c -> emits P c.
Proof.
  intros HQ H w. destruct (H w) as (t & Ht & HF & _). exists t.
  split; [exact Ht|]. eapply Forall_impl; [exact HQ|exact HF].
Qed.

Lemma emits_ret {A} (a : A) : emits P (ret a).
Proof. intros w. exists []. cbn. rewrite app_nil_r. auto. Qed.

Lemma emits_throw {A} (e : exn) : emits P (@throw A e).
Proof. intros w. exists []. cbn. rewrite app_nil_r. auto. Qed.

Lemma emits_bind {A B} (c : M A) (k : A -> M B) :
  emits P c -> (forall a, emits P (k a)) -> emits P (bind c k).
Proof.
  intros Hc Hk w. unfold bind. destruct (Hc w) as (t & Ht & HF).
  destruct (c w) as [[e|a] w1]; cbn [snd] in *.
  - eauto.
  - destruct (Hk a w1) as (t' & Ht' & HF'). exists (t ++ t')%list.
    rewrite Ht', Ht, app_assoc. split; [reflexivity|].
    apply Forall_app; auto.
Qed.

Lemma emits_subprocess_run R script :
  P (EvRun script) -> emits P (subprocess_run R script).
Proof.
  intros H w. unfold subprocess_run, bind, log. cbn.
  destruct (run R script (w_env w)). cbn. eauto.
Qed.

End Frames.

Ltac frames_step :=
  first
    [ apply frames_ret | apply frames_throw | apply frames_lift
    | apply frames_read
    | apply frames_log; cbn; auto
    | apply frames_try_except
    | apply frames_bind; [|intros ?]
    | match goal with
      | |- frames _ (if ?b then _ else _) => destruct b
      | |- frames _ (match ?x with _ => _ end) => destruct x
      end ].

Lemma frames_run {A} P (c : M A) w r w1 :
  frames P c -> c w = (r, w1) ->
  exists t, w_trace w1 = (w_trace w ++ t)%list /\ Forall P t /\
            w_env w1 = w_env w /\ w_requests w1 = w_requests w.
Proof. intros H E. specialize (H w). rewrite E in H. exact H. Qed.

Lemma frames_load_json_file P file :
  P (EvReadText file) -> frames P (load_json_file file).
Proof.
  intros H. unfold load_json_file, read_text. repeat frames_step.
Qed.

Lemma frames_path_exists P file :
  P (EvExists file) -> frames P (path_exists file).
Proof. intros H. unfold path_exists. repeat frames_step. Qed.

(** The first tier touches the credential file and the clock only. *)
Lemma frames_load_cookie_from_disk : frames disk_effect _load_cookie_from_disk.
Proof.
  unfold _load_cookie_from_disk, datetime_now.
  apply frames_bind; [apply frames_path_exists; reflexivity|intros e].
  destruct (negb e); [apply frames_ret|].
  apply frames_bind; [apply frames_load_json_file; reflexivity|intros parsed].
  repeat frames_step.
Qed.

(** The second tier touches the peer-capture file only. *)
Lemma frames_load_cookie_from_search_results :
  frames peer_effect _load_cookie_from_search_results.
Proof.
  unfold _load_cookie_from_search_results.
  apply frames_bind; [apply frames_path_exists; reflexivity|intros e].
  destruct (negb e); [apply frames_ret|].
  apply frames_bind; [apply frames_load_json_file; reflexivity|intros parsed].
  repeat frames_step.
Qed.

Lemma emits_first_existing P l :
  (forall f, P (EvExists f)) -> emits P (first_existing l).
Proof.
  intros H. induction l as [|c l IH]; cbn [first_existing];
    [apply emits_throw|].
  apply emits_bind.
  - apply (emits_frames P P); [auto|]. apply frames_path_exists. apply H.
  - intros []; [apply emits_ret|exact IH].
Qed.

Lemma disk_is_credential e : disk_effect e -> credential_effect e.
Proof. destruct e; cbn; auto. Qed.

Lemma peer_is_credential e : peer_effect e -> credential_effect e.
Proof. destruct e; cbn; auto. Qed.

Lemma emits_run_cookie_script R :
  emits credential_effect (_run_cookie_script R).
Proof.
  unfold _run_cookie_script, _find_cookie_script.
  apply emits_bind; [apply emits_first_existing; intros f; exact I|intros s].
  apply emits_bind; [apply emits_subprocess_run; exact I|intros cp].
  destruct (negb _); [apply emits_throw|apply emits_ret].
Qed.

Lemma emits_extraction_tier R :
  emits credential_effect
    (_run_cookie_script R ;;;
     cookie <- _load_cookie_from_disk ;;
     if negb (truthy cookie) then
       throw (RuntimeError
                "Cookie file was not created by the extractor script")
     else ret cookie).
Proof.
  apply emits_bind; [apply emits_run_cookie_script|intros _].
  apply emits_bind.
  - exact (emits_frames _ _ _ disk_is_credential frames_load_cookie_from_disk).
  - intros c. destruct (negb _); [apply emits_throw|apply emits_ret].
Qed.

(** The credential chain has no effect besides files, clock and
    extractor. *)
Lemma emits_get_wssessionid R : emits credential_effect (get_wssessionid R).
Proof.
  unfold get_wssessionid.
  apply emits_bind.
  - exact (emits_frames _ _ _ disk_is_credential frames_load_cookie_from_disk).
  - intros c. destruct (truthy c); [apply emits_ret|].
    apply emits_bind.
    + exact (emits_frames _ _ _ peer_is_credential
               frames_load_cookie_from_search_results).
    + intros c'. destruct (truthy c'); [apply emits_ret|].
      apply emits_extraction_tier.
Qed.

Lemma disk_effect_not_peer t :
  Forall disk_effect t ->
  ~ In (EvExists SEARCH_COOKIES_FILE) t /\
  ~ In (EvReadText SEARCH_COOKIES_FILE) t /\
  forall s, ~ In (EvRun s) t.
Proof.
  intros H. rewrite Forall_forall in H.
  split; [|split; [|intros s]]; intros Hin; apply H in Hin; cbn in Hin;
    try discriminate; auto.
Qed.

Lemma peer_effect_not_run t :
  Forall peer_effect t -> forall s, ~ In (EvRun s) t.
Proof.
  intros H s Hin. rewrite Forall_forall in H. apply H in Hin. exact Hin.
Qed.

(** ** The credential chain *)

Lemma py_get_dict d k default :
  py_get (PDict d) k default = ok (get_default k d default).
Proof. reflexivity. Qed.

(** When the first two tiers give no credential, the extraction tier runs
    in the world they left. *)
Lemma chain_reaches_extraction R w c0 w1 c1 w2 :
  _load_cookie_from_disk w = (ok c0, w1) -> truthy c0 = false ->
  _load_cookie_from_search_results w1 = (ok c1, w2) -> truthy c1 = false ->
  get_wssessionid R w =
  (_run_cookie_script R ;;;
   cookie <- _load_cookie_from_disk ;;
   if negb (truthy cookie) then
     throw (RuntimeError
              "Cookie file was not created by the extractor script")
   else ret cookie) w2 /\
  exists t1 t2, w_trace w2 = (w_trace w ++ t1 ++ t2)%list /\
    Forall disk_effect t1 /\ Forall peer_effect t2.
Proof.
  intros Hd Hc0 Hp Hc1. split.
  - unfold get_wssessionid.
    rewrite (bind_ok _ _ _ _ _ Hd), Hc0, (bind_ok _ _ _ _ _ Hp), Hc1.
    reflexivity.
  - destruct (frames_run _ _ _ _ _ frames_load_cookie_from_disk Hd)
      as (t1 & Ht1 & HP1 & _).
    destruct (frames_run _ _ _ _ _ frames_load_cookie_from_search_results Hp)
      as (t2 & Ht2 & HP2 & _).
    exists t1, t2. rewrite Ht2, Ht1, app_assoc. auto.
Qed.

(** C3: the chain tries disk reuse, then the peer-capture harvest, then the
    extractor, and stops at the first success.  When the disk load returns
    a credential, the chain returns it in the world the load left, and the
    effects of the run are those of the credential file and the clock: the
    peer-capture file is neither tested nor read and no extractor runs.
    When the disk load gives none and the harvest succeeds, the chain
    returns the harvested value, the disk effects come before the
    peer-capture effects, and no extractor runs.  When both give none, the
    extraction tier runs in the world the two left. *)
Theorem get_wssessionid_short_circuit (R : runtime) (w : world) :
  (forall c w1,
     _load_cookie_from_disk w = (ok c, w1) -> truthy c = true ->
     get_wssessionid R w = (ok c, w1) /\
     exists t, w_trace w1 = (w_trace w ++ t)%list /\
       Forall disk_effect t /\
       ~ In (EvExists SEARCH_COOKIES_FILE) t /\
       ~ In (EvReadText SEARCH_COOKIES_FILE) t /\
       forall s, ~ In (EvRun s) t)
  /\
  (forall c0 w1 c w2,
     _load_cookie_from_disk w = (ok c0, w1) -> truthy c0 = false ->
     _load_cookie_from_search_results w1 = (ok c, w2) -> truthy c = true ->
     get_wssessionid R w = (ok c, w2) /\
     exists t1 t2, w_trace w2 = (w_trace w ++ t1 ++ t2)%list /\
       Forall disk_effect t1 /\ Forall peer_effect t2 /\
       forall s, ~ In (EvRun s) (t1 ++ t2)%list)
  /\
  (forall c0 w1 c1 w2,
     _load_cookie_from_disk w = (ok c0, w1) -> truthy c0 = false ->
     _load_cookie_from_search_results w1 = (ok c1, w2) -> truthy c1 = false ->
     get_wssessionid R w =
     (_run_cookie_script R ;;;
      cookie <- _load_cookie_from_disk ;;
      if negb (truthy cookie) then
        throw (RuntimeError
                 "Cookie file was not created by the extractor script")
      else ret cookie) w2 /\
     exists t1 t2, w_trace w2 = (w_trace w ++ t1 ++ t2)%list /\
       Forall disk_effect t1 /\ Forall peer_effect t2).
Proof.
  split; [|split].
  - intros c w1 Hd Hc. split.
    + unfold get_wssessionid. rewrite (bind_ok _ _ _ _ _ Hd), Hc. reflexivity.
    + destruct (frames_run _ _ _ _ _ frames_load_cookie_from_disk Hd)
        as (t & Ht & HP & _).
      exists t. split; [exact Ht|]. split; [exact HP|].
      apply disk_effect_not_peer, HP.
  - intros c0 w1 c w2 Hd Hc0 Hp Hc. split.
    + unfold get_wssessionid.
      rewrite (bind_ok _ _ _ _ _ Hd), Hc0, (bind_ok _ _ _ _ _ Hp), Hc.
      reflexivity.
    + destruct (frames_run _ _ _ _ _ frames_load_cookie_from_disk Hd)
        as (t1 & Ht1 & HP1 & _).
      destruct (frames_run _ _ _ _ _ frames_load_cookie_from_search_results Hp)
        as (t2 & Ht2 & HP2 & _).
      exists t1, t2. rewrite Ht2, Ht1, app_assoc.
      repeat split; auto.
      intros s Hin. apply in_app_or in Hin as [Hin|Hin].
      * apply (proj2 (proj2 (disk_effect_not_peer _ HP1)) s Hin).
      * apply (peer_effect_not_run _ HP2 s Hin).
  - intros c0 w1 c1 w2 Hd Hc0 Hp Hc1.
    exact (chain_reaches_extraction R w c0 w1 c1 w2 Hd Hc0 Hp Hc1).
Qed.

(** An instance of C3: a credential stored 11 h 59 min ago is returned
    after three effects on the credential file and the clock; with a stale
    one, the harvest of the peer-capture file ends the chain. *)
Lemma get_wssessionid_short_circuit_witness :
  (fst (get_wssessionid (sample_runtime http_week) fresh_world)
     = ok (PStr "abc123") /\
   w_trace (snd (get_wssessionid (sample_runtime http_week) fresh_world))
     = [EvExists COOKIE_FILE; EvReadText COOKIE_FILE; EvNow]) /\
  (fst (get_wssessionid (sample_runtime http_week) stale_world)
     = ok (PStr "abc123") /\
   w_trace (snd (get_wssessionid (sample_runtime http_week) stale_world))
     = [EvExists COOKIE_FILE; EvReadText COOKIE_FILE; EvNow;
        EvExists SEARCH_COOKIES_FILE; EvReadText SEARCH_COOKIES_FILE]).
Proof.
  split.
  - destruct (proj1 (get_wssessionid_short_circuit
                       (sample_runtime http_week) fresh_world)
                (PStr "abc123") (snd (_load_cookie_from_disk fresh_world))
                ltac:(vm_compute; reflexivity)
                ltac:(vm_compute; reflexivity)) as [E _].
    rewrite E. split; vm_compute; reflexivity.
  - destruct (proj1 (proj2 (get_wssessionid_short_circuit
                              (sample_runtime http_week) stale_world))
                PNone (snd (_load_cookie_from_disk stale_world))
                (PStr "abc123")
                (snd (_load_cookie_from_search_results
                        (snd (_load_cookie_from_disk stale_world))))
                ltac:(vm_compute; reflexivity)
                ltac:(vm_compute; reflexivity)
                ltac:(vm_compute; reflexivity)
                ltac:(vm_compute; reflexivity)) as [E _].
    rewrite E. split; vm_compute; reflexivity.
Defined.


Lemma path_exists_run w file :
  path_exists file w =
  (ok (match fs (w_env w) file with Missing => false | _ => true end),
   mkworld (w_env w) (w_requests w) (w_trace w ++ [EvExists file])).
Proof. reflexivity. Qed.

Lemma load_json_file_run w file v :
  fs (w_env w) file = Content (Json v) ->
  load_json_file file w =
  (ok (Some v),
   mkworld (w_env w) (w_requests w) (w_trace w ++ [EvReadText file])).
Proof.
  intros H. unfold load_json_file, try_except, read_text, bind, log, lift, ret.
  cbn. rewrite H. reflexivity.
Qed.






Lemma first_existing_run l : forall w,
  exists t,
    first_existing l w =
    (match List.find (file_exists (w_env w)) l with
     | Some s => ok s
     | None => raise (FileNotFoundError no_extractor_message)
     end,
     mkworld (w_env w) (w_requests w) (w_trace w ++ t)) /\
    count_runs t = 0%nat.
Proof.
  induction l as [|c l IH]; intros w; cbn [first_existing List.find].
  - exists []. rewrite app_nil_r. destruct w; split; reflexivity.
  - erewrite bind_ok by apply path_exists_run.
    unfold file_exists at 1.
    destruct (fs (w_env w) c) eqn:E.
    + destruct (IH (mkworld (w_env w) (w_requests w)
                            (w_trace w ++ [EvExists c]))) as (t & Ht & Hc).
      exists (EvExists c :: t). rewrite Ht. cbn [w_env w_requests w_trace].
      rewrite <- app_assoc. split; [reflexivity|exact Hc].
    + exists [EvExists c]. split; reflexivity.
    + exists [EvExists c]. split; reflexivity.
Qed.

Lemma count_runs_app t1 t2 :
  count_runs (t1 ++ t2) = (count_runs t1 + count_runs t2)%nat.
Proof. unfold count_runs. now rewrite filter_app, length_app. Qed.

Lemma count_runs_disk t : Forall disk_effect t -> count_runs t = 0%nat.
Proof.
  induction 1 as [|e t He _ IH]; [reflexivity|].
  destruct e; cbn in He; try contradiction; exact IH.
Qed.

Lemma count_runs_peer t : Forall peer_effect t -> count_runs t = 0%nat.
Proof.
  induction 1 as [|e t He _ IH]; [reflexivity|].
  destruct e; cbn in He; try contradiction; exact IH.
Qed.

Lemma run_cookie_script_run R w :
  exists t, count_runs t = 0%nat /\
    _run_cookie_script R w =
    match find_script (w_env w) with
    | None =>
        (raise (FileNotFoundError no_extractor_message),
         mkworld (w_env w) (w_requests w) (w_trace w ++ t))
    | Some s =>
        (if returncode (fst (run R s (w_env w))) =? 0 then ok tt
         else raise (RuntimeError
                       ("Cookie extractor " ++ s ++ " failed with code "
                        ++ Str.of_int (returncode (fst (run R s (w_env w)))))),
         mkworld (snd (run R s (w_env w))) (w_requests w)
                 (w_trace w ++ t ++ [EvRun s]))
    end.
Proof.
  destruct (first_existing_run extractor_candidates w) as (t & Ht & Hc).
  exists t. split; [exact Hc|].
  unfold _run_cookie_script, _find_cookie_script, find_script.
  destruct (List.find (file_exists (w_env w)) extractor_candidates) as [s|].
  - rewrite (bind_ok _ _ _ _ _ Ht).
    unfold subprocess_run, bind, log, ok, raise, ret, throw.
    cbn [fst snd w_env w_requests w_trace].
    destruct (run R s (w_env w)) as [cp e']. cbn [fst snd].
    rewrite <- ?app_assoc.
    destruct (returncode cp =? 0); reflexivity.
  - rewrite (bind_raise _ _ _ _ _ Ht). reflexivity.
Qed.

(** X11: the extraction tier, once the first two tiers gave no credential: the
    chain raises FileNotFoundError when no candidate exists, RuntimeError
    with the exit status when the extractor fails, and RuntimeError again
    when the extractor succeeds and the store still gives no credential;
    when the store then gives one, the chain returns it.  The extractor
    runs once at most. *)
Lemma acquisition_fatal_cases R w c0 w1 c1 w2 :
  _load_cookie_from_disk w = (ok c0, w1) -> truthy c0 = false ->
  _load_cookie_from_search_results w1 = (ok c1, w2) -> truthy c1 = false ->
  (count_runs (w_trace (snd (get_wssessionid R w)))
   <= count_runs (w_trace w) + 1)%nat /\
  match find_script (w_env w2) with
  | None =>
      fst (get_wssessionid R w)
        = raise (FileNotFoundError no_extractor_message) /\
      count_runs (w_trace (snd (get_wssessionid R w)))
        = count_runs (w_trace w)
  | Some s =>
      let cp := fst (run R s (w_env w2)) in
      let w3 := snd (_run_cookie_script R w2) in
      w_env w3 = snd (run R s (w_env w2)) /\
      (returncode cp <> 0 ->
       fst (get_wssessionid R w)
         = raise (RuntimeError
                    ("Cookie extractor " ++ s ++ " failed with code "
                     ++ Str.of_int (returncode cp)))) /\
      (returncode cp = 0 ->
       forall c3 w4,
         _load_cookie_from_disk w3 = (ok c3, w4) ->
         (truthy c3 = false ->
          fst (get_wssessionid R w)
            = raise (RuntimeError
                       "Cookie file was not created by the extractor script"))
         /\
         (truthy c3 = true -> fst (get_wssessionid R w) = ok c3))
  end.
Proof.
  intros Hd Hc0 Hp Hc1.
  destruct (chain_reaches_extraction R w c0 w1 c1 w2 Hd Hc0 Hp Hc1)
    as (Hrun & t1 & t2 & Ht & HP1 & HP2).
  rewrite Hrun.
  destruct (run_cookie_script_run R w2) as (t & Hc & Hscript).
  assert (Hbase : count_runs (w_trace w2) = count_runs (w_trace w)).
  { rewrite Ht, !count_runs_app, (count_runs_disk _ HP1),
      (count_runs_peer _ HP2). lia. }
  destruct (find_script (w_env w2)) as [s|].
  - set (cp := fst (run R s (w_env w2))) in *.
    destruct (returncode cp =? 0) eqn:Ecode.
    + apply Z.eqb_eq in Ecode.
      assert (Hafter : forall r w4,
                _load_cookie_from_disk (snd (_run_cookie_script R w2))
                  = (r, w4) ->
                count_runs (w_trace w4) = (count_runs (w_trace w) + 1)%nat).
      { intros r w4 E.
        destruct (frames_run _ _ _ _ _ frames_load_cookie_from_disk E)
          as (t4 & Ht4 & HP4 & _).
        rewrite Ht4, Hscript. cbn [snd w_trace].
        rewrite !count_runs_app, (count_runs_disk _ HP4), Hc, Hbase.
        cbn. lia. }
      split.
      * rewrite (bind_ok _ _ _ tt (snd (_run_cookie_script R w2)))
          by (rewrite Hscript; reflexivity).
        unfold bind.
        destruct (_load_cookie_from_disk (snd (_run_cookie_script R w2)))
          as [[e|c3] w4] eqn:E; cbn [snd].
        -- rewrite (Hafter _ _ eq_refl). lia.
        -- destruct (negb (truthy c3)); cbn [snd throw ret];
             rewrite (Hafter _ _ eq_refl); lia.
      * split; [rewrite Hscript; reflexivity|].
        split; [intros Hne; contradiction|].
        intros _ c3 w4 Hload.
        rewrite (bind_ok _ _ _ tt (snd (_run_cookie_script R w2)))
          by (rewrite Hscript; reflexivity).
        rewrite (bind_ok _ _ _ _ _ Hload).
        split; intros Htr; rewrite Htr; reflexivity.
    + apply Z.eqb_neq in Ecode.
      rewrite (bind_raise _ _ _ _ _ Hscript). cbn [fst snd w_trace].
      split.
      * rewrite !count_runs_app, Hc, Hbase. cbn. lia.
      * split; [rewrite Hscript; reflexivity|].
        split; [intros _; reflexivity|intros E0; contradiction].
  - rewrite (bind_raise _ _ _ _ _ Hscript). cbn [fst snd w_trace].
    rewrite count_runs_app, Hc, Hbase.
    split; [lia|]. split; [reflexivity|lia].
Qed.

(** The states of the store in which the load gives no credential: the
    file is absent or is not JSON, or it is an object in which the token
    or the timestamp is missing or empty, or the timestamp does not
    parse. *)
Lemma load_cookie_degrades w :
  (fs (w_env w) COOKIE_FILE = Missing ->
   fst (_load_cookie_from_disk w) = ok PNone) /\
  (fs (w_env w) COOKIE_FILE = Content NotJson ->
   fst (_load_cookie_from_disk w) = ok PNone) /\
  (forall d,
     fs (w_env w) COOKIE_FILE = Content (Json (PDict d)) ->
     truthy (get_default "WSSESSIONID" d PNone) = false \/
     truthy (get_default "extracted_at" d PNone) = false \/
     _parse_datetime (get_default "extracted_at" d PNone) = None ->
     fst (_load_cookie_from_disk w) = ok PNone).
Proof.
  split; [|split].
  - intros H. unfold _load_cookie_from_disk.
    erewrite bind_ok by apply path_exists_run. cbn [w_env]. now rewrite H.
  - intros H. unfold _load_cookie_from_disk.
    erewrite bind_ok by apply path_exists_run. cbn [w_env]. rewrite H.
    cbn [negb]. unfold load_json_file, try_except, read_text, bind, log, lift.
    cbn. rewrite H. reflexivity.
  - intros d H Hbad. unfold _load_cookie_from_disk.
    erewrite bind_ok by apply path_exists_run. cbn [w_env]. rewrite H.
    cbn [negb].
    erewrite bind_ok by (apply load_json_file_run; exact H).
    cbv beta iota. rewrite !py_get_dict.
    unfold bind at 1. unfold lift at 1. cbn [ok].
    unfold bind at 1. unfold lift at 1. cbn [ok].
    destruct (truthy (get_default "WSSESSIONID" d PNone)) eqn:Ec;
      [|reflexivity].
    destruct (truthy (get_default "extracted_at" d PNone)) eqn:Et;
      [|reflexivity].
    cbn [negb orb].
    destruct Hbad as [Hb|[Hb|Hb]]; try discriminate Hb.
    rewrite Hb. reflexivity.
Qed.

(** Two more states in which the load raises: the file exists and cannot
    be read, and the file holds JSON that is not an object. *)
Lemma load_cookie_other_raises w :
  (fs (w_env w) COOKIE_FILE = Unreadable ->
   fst (_load_cookie_from_disk w) = raise OSError) /\
  (forall l, fs (w_env w) COOKIE_FILE = Content (Json (PList l)) ->
   fst (_load_cookie_from_disk w) = raise AttributeError).
Proof.
  split.
  - intros H. unfold _load_cookie_from_disk.
    erewrite bind_ok by apply path_exists_run. cbn [w_env]. rewrite H.
    cbn [negb]. unfold load_json_file, try_except, read_text, bind, log, lift.
    cbn. rewrite H. reflexivity.
  - intros l H. unfold _load_cookie_from_disk.
    erewrite bind_ok by apply path_exists_run. cbn [w_env]. rewrite H.
    cbn [negb].
    erewrite bind_ok by (apply load_json_file_run; exact H).
    reflexivity.
Qed.

(** C2 fails on the code: the store holds a token and a timestamp that
    ends in Z.  _parse_datetime accepts it and returns an aware datetime;
    the subtraction from the naive datetime.now() raises TypeError, which
    nothing catches. *)
Theorem load_cookie_zulu_raises :
  _parse_datetime (PStr "2025-03-10T10:00:00Z")
    = Some (mkdt (Calendar.mkdate 2025 3 10) 10 0 0 0 (Some 0)) /\
  fst (_load_cookie_from_disk zulu_world) = raise TypeError.
Proof. split; vm_compute; reflexivity. Qed.

(** C4 fails on the code: an extractor exists, exits with status 0 and
    stores a fresh credential, so none of the three fatal conditions
    holds; the chain raises all the same, with the TypeError of the
    store's load on a timestamp that ends in Z. *)
Theorem get_wssessionid_fourth_fatal_case :
  find_script (w_env zulu_world) = Some "cmu25live_extractor.py" /\
  returncode (fst (run (sample_runtime http_week) "cmu25live_extractor.py"
                       (w_env zulu_world))) = 0 /\
  fst (_load_cookie_from_disk
         (mkworld (snd (run (sample_runtime http_week)
                            "cmu25live_extractor.py" (w_env zulu_world)))
                  0 [])) = ok (PStr "abc123") /\
  fst (get_wssessionid (sample_runtime http_week) zulu_world)
    = raise TypeError.
Proof. repeat split; vm_compute; reflexivity. Qed.

(** ** The peer-capture harvest *)


















(** ** The event fetcher *)

(** One request: its outcome, the request count and the trace *)
Lemma fetch_building_events_run R b d c w :
  fetch_building_events R b d c w =
  (fetch_outcome R b d
     (http R (w_requests w) (get_url b d) (cookie_header R c)),
   mkworld (w_env w) (S (w_requests w))
           (w_trace w ++ [EvGet (get_url b d) (cookie_header R c)])).
Proof.
  unfold fetch_building_events, fetch_outcome, cookie_header, try_except,
    requests_get, raise_for_status, is_error_status, bind, log, lift, ret.
  cbn [fst snd w_env w_requests w_trace].
  destruct (http R (w_requests w) _ _) as [e|resp]; cbn; [reflexivity|].
  destruct ((400 <=? status_code resp) && (status_code resp <? 600)); cbn;
    [reflexivity|].
  destruct (body resp); cbn; reflexivity.
Qed.

Lemma locations_loop R b day e locs : forall acc,
  for_each_r (append_location R b day (PDict e)) (map PDict locs) acc =
  ok (acc ++ map (record_for R b day e) locs)%list.
Proof.
  induction locs as [|l locs IH]; intros acc; cbn [for_each_r map].
  - now rewrite app_nil_r.
  - unfold append_location at 1. rewrite !py_get_dict. cbn [rbind ok].
    rewrite IH, <- app_assoc. reflexivity.
Qed.

Lemma entries_loop R b day shapes : forall acc,
  (forall e locs, In (e, locs) shapes ->
     get_default "subject" e (PList []) = PList (map PDict locs)) ->
  for_each_r (append_event R b day) (map (fun s => PDict (fst s)) shapes) acc =
  ok (acc ++ flat_map (fun s => map (record_for R b day (fst s)) (snd s))
                      shapes)%list.
Proof.
  induction shapes as [|[e locs] shapes IH]; intros acc H;
    cbn [for_each_r map flat_map fst snd].
  - now rewrite app_nil_r.
  - unfold append_event at 1. rewrite py_get_dict.
    rewrite (H e locs (or_introl eq_refl)). cbn [rbind ok py_iter fst snd].
    rewrite locations_loop. cbn [rbind ok].
    rewrite IH, <- app_assoc; [reflexivity|].
    intros e' locs' Hin. apply H. right. exact Hin.
Qed.

(** C7: on a parsed answer whose reservation entries are dicts, each with
    a list of location dicts under "subject" (or none), the fetcher
    returns, entry by entry and location by location, one record per
    location.  The records of an entry are as many as its locations, they
    carry the entry's name, start and end and the day and building of the
    request, and the location of each is the itemName of its sub-entry; an
    entry without locations gives no record. *)
Theorem one_record_per_location R b day c w status data root evs first shapes :
  http R (w_requests w) (get_url b day) (cookie_header R c) =
    inr (mkresp status (Json data)) ->
  is_error_status status = false ->
  py_get data "root" (PDict []) = ok root ->
  py_get root "events" (PList [PDict []]) = ok evs ->
  py_index0 evs = ok first ->
  py_get first "rsrv" PNone = ok (PList (map (fun s => PDict (fst s)) shapes)) ->
  (forall e locs, In (e, locs) shapes ->
     get_default "subject" e (PList []) = PList (map PDict locs)) ->
  fst (fetch_building_events R b day c w) =
    ok (flat_map (fun s => map (record_for R b day (fst s)) (snd s)) shapes) /\
  (forall e locs, In (e, locs) shapes ->
     List.length (map (record_for R b day e) locs) = List.length locs /\
     forall r, In r (map (record_for R b day e) locs) ->
       name r = py_str R (get_default "event_name" e (PStr "")) /\
       startTime r = get_default "rsrv_start_dt" e PNone /\
       endTime r = get_default "rsrv_end_dt" e PNone /\
       date r = day /\ buildingID r = b /\
       exists l, In l locs /\ location r = get_default "itemName" l PNone) /\
  (forall e locs, In (e, locs) shapes -> lookup "subject" e = None ->
     locs = []).
Proof.
  intros Hh Hs Hroot Hevs Hfirst Hrsrv Hshape.
  split; [|split].
  - rewrite fetch_building_events_run, Hh.
    cbn [fst fetch_outcome status_code body].
    rewrite Hs. unfold events_of_data.
    rewrite Hroot. cbn [rbind ok]. rewrite Hevs. cbn [rbind ok].
    rewrite Hfirst. cbn [rbind ok]. rewrite Hrsrv. cbn [rbind ok].
    destruct shapes as [|s shapes]; [reflexivity|].
    replace (truthy (PList (map (fun s => PDict (fst s)) (s :: shapes))))
      with true by reflexivity.
    cbn [negb py_iter rbind ok].
    rewrite (entries_loop R b day (s :: shapes) [] Hshape). reflexivity.
  - intros e locs Hin. split; [apply length_map|].
    intros r Hr. apply in_map_iff in Hr as (l & <- & Hl). cbn.
    repeat split; eauto.
  - intros e locs Hin Hnone. specialize (Hshape e locs Hin).
    unfold get_default in Hshape. rewrite Hnone in Hshape.
    destruct locs; [reflexivity|discriminate Hshape].
Qed.

(** An instance of C7: a seminar in two rooms and an entry without rooms
    give the two records of the seminar. *)
Lemma one_record_per_location_witness :
  fst (fetch_building_events
         (sample_runtime (http_const (answer 200 body_two_elements)))
         "583845" "2025-03-10" (PStr "abc123") fresh_world) =
  ok [mkevent "Seminar" (PStr "Room A") (PStr "2025-03-10T09:00:00")
              (PStr "2025-03-10T10:00:00") "2025-03-10" "583845";
      mkevent "Seminar" (PStr "Room B") (PStr "2025-03-10T09:00:00")
              (PStr "2025-03-10T10:00:00") "2025-03-10" "583845"].
Proof.
  exact (proj1 (one_record_per_location
    (sample_runtime (http_const (answer 200 body_two_elements)))
    "583845" "2025-03-10" (PStr "abc123") fresh_world 200
    body_two_elements
    (PDict [("events",
             PList [first_element;
                    PDict [("rsrv", PList [PDict entry_elsewhere])]])])
    (PList [first_element; PDict [("rsrv", PList [PDict entry_elsewhere])]])
    first_element
    [(entry_two_rooms,
      [[("itemName", PStr "Room A")]; [("itemName", PStr "Room B")]]);
     (entry_no_room, [])]
    eq_refl eq_refl eq_refl eq_refl eq_refl eq_refl
    ltac:(intros e locs [H|[H|[]]]; injection H as <- <-; reflexivity))).
Defined.

Lemma events_of_data_first R b day data root first rest :
  py_get data "root" (PDict []) = ok root ->
  py_get root "events" (PList [PDict []]) = ok (PList (first :: rest)) ->
  events_of_data R b day data = events_of_first R b day first.
Proof.
  intros Hroot Hevs. unfold events_of_data, events_of_first.
  rewrite Hroot. cbn [rbind ok]. rewrite Hevs. reflexivity.
Qed.

(** C10: two parsed answers whose "events" lists start with the same
    element give the same result, whatever follows that element: the
    result is the one computed from the first element alone. *)
Theorem only_first_events_element R b day c w1 w2 st1 st2 data1 data2
    root1 root2 first rest1 rest2 :
  http R (w_requests w1) (get_url b day) (cookie_header R c) =
    inr (mkresp st1 (Json data1)) ->
  http R (w_requests w2) (get_url b day) (cookie_header R c) =
    inr (mkresp st2 (Json data2)) ->
  is_error_status st1 = false -> is_error_status st2 = false ->
  py_get data1 "root" (PDict []) = ok root1 ->
  py_get root1 "events" (PList [PDict []]) = ok (PList (first :: rest1)) ->
  py_get data2 "root" (PDict []) = ok root2 ->
  py_get root2 "events" (PList [PDict []]) = ok (PList (first :: rest2)) ->
  fst (fetch_building_events R b day c w1) =
  fst (fetch_building_events R b day c w2) /\
  fst (fetch_building_events R b day c w1) = events_of_first R b day first.
Proof.
  intros H1 H2 S1 S2 Hr1 He1 Hr2 He2.
  rewrite !fetch_building_events_run, H1, H2.
  cbn [fst fetch_outcome status_code body]. rewrite S1, S2.
  rewrite (events_of_data_first R b day data1 root1 first rest1 Hr1 He1).
  rewrite (events_of_data_first R b day data2 root2 first rest2 Hr2 He2).
  split; reflexivity.
Qed.

(** An instance of C10: the page with a second element, which holds a
    reservation in Room C, gives the same records as the page without. *)
Lemma only_first_events_element_witness :
  fst (fetch_building_events (sample_runtime http_two_pages)
         "583845" "2025-03-10" (PStr "abc123")
         (sample_world Missing Missing true false noon 0)) =
  fst (fetch_building_events (sample_runtime http_two_pages)
         "583845" "2025-03-10" (PStr "abc123")
         (sample_world Missing Missing true false noon 1)).
Proof.
  exact (proj1 (only_first_events_element (sample_runtime http_two_pages)
    "583845" "2025-03-10" (PStr "abc123")
    (sample_world Missing Missing true false noon 0)
    (sample_world Missing Missing true false noon 1)
    200 200 body_two_elements body_one_element
    (PDict [("events",
             PList [first_element;
                    PDict [("rsrv", PList [PDict entry_elsewhere])]])])
    (PDict [("events", PList [first_element])])
    first_element [PDict [("rsrv", PList [PDict entry_elsewhere])]] []
    eq_refl eq_refl eq_refl eq_refl eq_refl eq_refl eq_refl eq_refl)).
Defined.

(** X13: a failure the fetcher catches gives the empty list: the request
    raised, the status is an error, or the body is not JSON. *)
Lemma fetch_failure_empty R b d c w :
  (exists e, http R (w_requests w) (get_url b d) (cookie_header R c)
             = inl e) \/
  (exists resp,
     http R (w_requests w) (get_url b d) (cookie_header R c) = inr resp /\
     (is_error_status (status_code resp) = true \/ body resp = NotJson)) ->
  fst (fetch_building_events R b d c w) = ok [].
Proof.
  intros H. rewrite fetch_building_events_run. cbn [fst].
  destruct H as [[e ->]|(resp & -> & [Hs|Hb])]; cbn [fetch_outcome].
  - reflexivity.
  - now rewrite Hs.
  - rewrite Hb. now destruct (is_error_status _).
Qed.

(** A parsed answer without "events", or whose first element has no
    reservations, gives the empty list. *)
Lemma events_of_data_no_reservations R b day data root first rest rsrv :
  py_get data "root" (PDict []) = ok root ->
  py_get root "events" (PList [PDict []]) = ok (PList (first :: rest)) ->
  py_get first "rsrv" PNone = ok rsrv -> truthy rsrv = false ->
  events_of_data R b day data = ok [].
Proof.
  intros Hroot Hevs Hrsrv Ht.
  rewrite (events_of_data_first R b day data root first rest Hroot Hevs).
  unfold events_of_first. rewrite Hrsrv. cbn [rbind ok]. now rewrite Ht.
Qed.

(** C1 fails on the code: the service answers 200 with the JSON body
    {"root": {"events": []}}.  The lookup of element 0 of the empty list
    raises IndexError, which nothing catches; so does AttributeError when
    the root of the body is a list. *)
Theorem fetch_building_events_empty_events_raises :
  fst (fetch_building_events
         (sample_runtime (http_const (answer 200 body_empty_events)))
         "583845" "2025-03-10" (PStr "abc123") fresh_world)
    = raise IndexError /\
  fst (fetch_building_events
         (sample_runtime (http_const (answer 200 (PList []))))
         "583845" "2025-03-10" (PStr "abc123") fresh_world)
    = raise AttributeError.
Proof. split; vm_compute; reflexivity. Qed.

(** ** The fetch orchestrator *)

Lemma for_each_app {A S} (body : A -> S -> M S) l1 : forall l2 s w,
  for_each body (l1 ++ l2) s w =
  bind (for_each body l1 s) (fun s' => for_each body l2 s') w.
Proof.
  induction l1 as [|x l1 IH]; intros l2 s w; cbn [app for_each].
  - reflexivity.
  - unfold bind. destruct (body x s w) as [[e|s'] w']; [reflexivity|].
    rewrite IH. reflexivity.
Qed.

Lemma for_each_map {A B S} (g : A -> B) (body : B -> S -> M S) l : forall s w,
  for_each body (map g l) s w = for_each (fun a => body (g a)) l s w.
Proof.
  induction l as [|x l IH]; intros s w; cbn [map for_each]; [reflexivity|].
  unfold bind. destruct (body (g x) s w) as [[e|s'] w']; [reflexivity|].
  apply IH.
Qed.

(** The nested loops visit the pairs of list_prod in order. *)
Lemma nested_loops_flat {S} (body : string * string -> S -> M S) days bs :
  forall s w,
  for_each (fun b s => for_each (fun d s => body (b, d) s) days s) bs s w =
  for_each body (list_prod bs days) s w.
Proof.
  induction bs as [|b bs IH]; intros s w; cbn [for_each list_prod];
    [reflexivity|].
  rewrite for_each_app. unfold bind.
  rewrite (for_each_map (fun d => (b, d)) body days s w).
  destruct (for_each _ days s w) as [[e|s'] w']; [reflexivity|].
  apply IH.
Qed.

(** One iteration: the outcome is appended, the request is counted, and
    the pause follows unless the fetcher raised. *)
Lemma fetch_pair_run R c p acc w :
  fetch_pair R c p acc w =
  (rbind (outcome_at R c (w_requests w) p) (fun evs => ok (acc ++ evs)%list),
   mkworld (w_env w) (S (w_requests w))
     (w_trace w ++
      match outcome_at R c (w_requests w) p with
      | inl _ => [EvGet (get_url (fst p) (snd p)) (cookie_header R c)]
      | inr _ => fetch_effects R c p
      end)).
Proof.
  unfold fetch_pair. unfold bind at 1. rewrite fetch_building_events_run.
  unfold outcome_at.
  destruct (fetch_outcome _ _ _ _) as [e|evs]; cbn; [reflexivity|].
  rewrite <- app_assoc. reflexivity.
Qed.

Lemma flat_loop R c ps : forall lists acc w,
  outcomes R c (w_requests w) ps = map ok lists ->
  for_each (fetch_pair R c) ps acc w =
  (ok (acc ++ List.concat lists)%list,
   mkworld (w_env w) (w_requests w + List.length ps)
           (w_trace w ++ flat_map (fetch_effects R c) ps)).
Proof.
  induction ps as [|p ps IH]; intros lists acc w H.
  - destruct lists; [|discriminate H]. cbn.
    rewrite !app_nil_r, Nat.add_0_r. destruct w; reflexivity.
  - destruct lists as [|evs lists]; [discriminate H|].
    cbn [outcomes map] in H. injection H as H1 H2.
    cbn [for_each]. unfold bind. rewrite fetch_pair_run, H1.
    cbn [rbind ok].
    rewrite (IH lists); [|exact H2].
    cbn [w_env w_requests w_trace List.concat flat_map List.length].
    rewrite <- !app_assoc, Nat.add_succ_r. reflexivity.
Qed.







(** * Further properties *)

(** ** Further properties of the credential store *)

Lemma load_cookie_prefix w v :
  fs (w_env w) COOKIE_FILE = Content (Json v) ->
  _load_cookie_from_disk w =
  (match Some v with
   | None => ret PNone
   | Some data =>
      extracted_at <- lift (py_get data "extracted_at" PNone) ;;
      cookie <- lift (py_get data "WSSESSIONID" PNone) ;;
      if negb (truthy cookie) || negb (truthy extracted_at) then ret PNone
      else
        match _parse_datetime extracted_at with
        | None => ret PNone
        | Some extracted_dt =>
          n <- datetime_now ;;
          td <- lift (datetime_sub n extracted_dt) ;;
          let hours_diff := (total_seconds td / 3600)%Q in
          if Qlt_bool hours_diff COOKIE_MAX_AGE_HOURS then ret cookie
          else ret PNone
        end
   end)
    (mkworld (w_env w) (w_requests w)
       (w_trace w ++ [EvExists COOKIE_FILE; EvReadText COOKIE_FILE])).
Proof.
  intros H. unfold _load_cookie_from_disk.
  erewrite bind_ok by apply path_exists_run. cbn [w_env]. rewrite H.
  cbn [negb].
  erewrite bind_ok by (apply load_json_file_run; exact H).
  cbn [w_env w_requests w_trace]. rewrite <- app_assoc. reflexivity.
Qed.

(** X1: a stored JSON document that is not an object makes the load raise
    AttributeError, and a file that exists and cannot be read makes it
    raise OSError: only json.JSONDecodeError is caught. *)
Theorem load_cookie_uncaught_errors w :
  (fs (w_env w) COOKIE_FILE = Unreadable ->
   fst (_load_cookie_from_disk w) = raise OSError) /\
  (forall v, fs (w_env w) COOKIE_FILE = Content (Json v) ->
     match v with PDict _ => False | _ => True end ->
     fst (_load_cookie_from_disk w) = raise AttributeError).
Proof.
  split.
  - apply (proj1 (load_cookie_other_raises w)).
  - intros v H Hv. rewrite (load_cookie_prefix w v H).
    destruct v; try contradiction; reflexivity.
Qed.

(** What the load does with a timestamp that carries a UTC offset *)
Lemma load_cookie_aware w d cookie ts dt off :
  fs (w_env w) COOKIE_FILE = Content (Json (PDict d)) ->
  lookup "WSSESSIONID" d = Some cookie -> truthy cookie = true ->
  lookup "extracted_at" d = Some ts -> truthy ts = true ->
  _parse_datetime ts = Some dt -> tzinfo dt = Some off ->
  fst (_load_cookie_from_disk w) = raise TypeError.
Proof.
  intros Hfs Hc Htc Hts Hne Hp Htz.
  rewrite (load_cookie_prefix w (PDict d) Hfs).
  unfold py_get. rewrite Hc, Hts.
  unfold bind at 1. unfold lift at 1. cbn [ok].
  unfold bind at 1. unfold lift at 1. cbn [ok].
  rewrite Htc, Hne. cbn [negb orb]. rewrite Hp.
  unfold datetime_now, datetime_sub, bind, log, lift, ret. cbn.
  rewrite Htz. reflexivity.
Qed.

Lemma endswith_char_app c s :
  Str.endswith_char c (s ++ String c "") = true.
Proof.
  induction s as [|a s IH]; cbn [append Str.endswith_char].
  - apply Ascii.eqb_refl.
  - destruct s; cbn [append] in *; exact IH.
Qed.

Lemma drop_last_app c s : Str.drop_last (s ++ String c "") = s.
Proof.
  induction s as [|a s IH]; cbn [append Str.drop_last]; [reflexivity|].
  destruct s; cbn [append] in *; [reflexivity|]. now rewrite IH.
Qed.

Lemma drop_app n : forall s x,
  (n <= String.length s)%nat -> Str.drop n (s ++ x) = Str.drop n s ++ x.
Proof.
  induction n as [|n IH]; intros s x H; [reflexivity|].
  destruct s as [|a s]; cbn in H; [lia|].
  cbn [append Str.drop]. apply IH. lia.
Qed.

Lemma find_app_some c a : forall x k,
  Str.find c x = Some k -> exists j, Str.find c (a ++ x) = Some j.
Proof.
  induction a as [|b a IH]; intros x k H; cbn [append Str.find]; [eauto|].
  destruct (Ascii.eqb b c); [eauto|].
  destruct (IH x k H) as (j & ->). cbn. eauto.
Qed.

Lemma tz_sign_pos_offset a : exists i, tz_sign_pos (a ++ "+00:00") = Some i.
Proof.
  unfold tz_sign_pos.
  destruct (Str.find "-" (a ++ "+00:00")) as [i|]; [eauto|].
  apply (find_app_some "+" a "+00:00" 0%nat). reflexivity.
Qed.

(** A time string with a sign reads as an aware time or not at all. *)
Lemma parse_isoformat_time_aware t i c tz :
  tz_sign_pos t = Some i ->
  parse_isoformat_time t = Some (c, tz) -> tz <> None.
Proof.
  unfold parse_isoformat_time. intros Hi. rewrite Hi.
  destruct (Nat.ltb _ _); [discriminate|].
  destruct (parse_hh_mm_ss_ff (Str.take i t)) as [c1|]; [|discriminate].
  destruct (negb _); [discriminate|].
  destruct (parse_hh_mm_ss_ff (Str.drop (S i) t)) as [[[[h mi] s] us]|];
    [|discriminate].
  destruct (timezone _) as [z|]; cbn [option_map]; [|discriminate].
  intros H. injection H as _ <-. discriminate.
Qed.

Lemma fromisoformat_time s x :
  fromisoformat s = Some x ->
  Str.nonempty (Str.drop 11 s) = true ->
  exists c, parse_isoformat_time (Str.drop 11 s) = Some (c, tzinfo x).
Proof.
  unfold fromisoformat. intros H Hne. rewrite Hne in H.
  destruct (parse_isoformat_date _) as [[[y m] d]|]; [|discriminate H].
  destruct (parse_isoformat_time _) as [[[[[h mi] sec] us] tz]|];
    [|discriminate H].
  destruct (valid_datetime _); [|discriminate H].
  injection H as <-. cbn [tzinfo]. eauto.
Qed.

Lemma nonempty_app_r a x : Str.nonempty x = true -> Str.nonempty (a ++ x) = true.
Proof. destruct a; cbn; auto. Qed.

(** A timestamp with a time part and a trailing Z reads as an aware
    datetime or not at all. *)
Lemma parse_datetime_zulu_aware s dt :
  (11 <= String.length s)%nat ->
  _parse_datetime (PStr (s ++ "Z")) = Some dt -> tzinfo dt <> None.
Proof.
  intros Hlen. unfold _parse_datetime.
  rewrite endswith_char_app, drop_last_app. intros H.
  assert (Hd : Str.drop 11 (s ++ "+00:00") = Str.drop 11 s ++ "+00:00")
    by (apply drop_app; exact Hlen).
  destruct (fromisoformat_time _ _ H) as (c & Hc).
  { rewrite Hd. apply nonempty_app_r. reflexivity. }
  rewrite Hd in Hc.
  destruct (tz_sign_pos_offset (Str.drop 11 s)) as (i & Hi).
  exact (parse_isoformat_time_aware _ i c _ Hi Hc).
Qed.

(** X2: a stored timestamp that carries a UTC offset never gives a
    credential: the load raises TypeError, whatever the age.  So does every
    timestamp with a time part and a trailing Z that the parser accepts;
    one the parser rejects gives no credential. *)
Theorem load_cookie_aware_timestamp_raises w d cookie :
  fs (w_env w) COOKIE_FILE = Content (Json (PDict d)) ->
  lookup "WSSESSIONID" d = Some cookie -> truthy cookie = true ->
  (forall ts dt off,
     lookup "extracted_at" d = Some (PStr ts) ->
     _parse_datetime (PStr ts) = Some dt -> tzinfo dt = Some off ->
     fst (_load_cookie_from_disk w) = raise TypeError) /\
  (forall s,
     lookup "extracted_at" d = Some (PStr (s ++ "Z")) ->
     (11 <= String.length s)%nat ->
     fst (_load_cookie_from_disk w) = raise TypeError \/
     (_parse_datetime (PStr (s ++ "Z")) = None /\
      fst (_load_cookie_from_disk w) = ok PNone)).
Proof.
  intros Hfs Hc Htc. split.
  - intros ts dt off Hts Hp Htz.
    apply (load_cookie_aware w d cookie (PStr ts) dt off Hfs Hc Htc Hts);
      [|exact Hp|exact Htz].
    destruct ts; [discriminate Hp|reflexivity].
  - intros s Hts Hlen.
    destruct (_parse_datetime (PStr (s ++ "Z"))) as [dt|] eqn:Hp.
    + left. pose proof (parse_datetime_zulu_aware s dt Hlen Hp) as Hz.
      destruct (tzinfo dt) as [off|] eqn:Htz; [|contradiction].
      apply (load_cookie_aware w d cookie (PStr (s ++ "Z")) dt off
               Hfs Hc Htc Hts); [|exact Hp|exact Htz].
      destruct s; reflexivity.
    + right. split; [reflexivity|].
      apply (proj2 (proj2 (load_cookie_degrades w)) d Hfs).
      right. right. unfold get_default. rewrite Hts. exact Hp.
Qed.

Lemma load_cookie_aware_timestamp_raises_witness :
  fst (_load_cookie_from_disk zulu_world) = raise TypeError.
Proof.
  exact (proj1 (load_cookie_aware_timestamp_raises zulu_world
           [("WSSESSIONID", PStr "abc123");
            ("extracted_at", PStr "2025-03-10T10:00:00Z")]
           (PStr "abc123") eq_refl eq_refl eq_refl)
         "2025-03-10T10:00:00Z"
         (mkdt (Calendar.mkdate 2025 3 10) 10 0 0 0 (Some 0)) 0
         eq_refl ltac:(vm_compute; reflexivity) eq_refl).
Defined.


(** X4: the load is read-only: whatever the store holds and whether the
    load returns or raises, the files, the clock and the request count are
    as before, and the only effects are the test and the reading of the
    credential file and the reading of the clock. *)
Theorem load_cookie_read_only w :
  w_env (snd (_load_cookie_from_disk w)) = w_env w /\
  w_requests (snd (_load_cookie_from_disk w)) = w_requests w /\
  exists t,
    w_trace (snd (_load_cookie_from_disk w)) = (w_trace w ++ t)%list /\
    Forall disk_effect t.
Proof.
  destruct (frames_load_cookie_from_disk w) as (t & Ht & HP & He & Hn).
  split; [exact He|]. split; [exact Hn|]. eauto.
Qed.

Lemma harvest_prefix w v :
  fs (w_env w) SEARCH_COOKIES_FILE = Content (Json v) ->
  _load_cookie_from_search_results w =
  (match Some v with
   | None => ret PNone
   | Some data =>
      preferred_entry <- lift (py_get data PREFERRED_COOKIE_KEY PNone) ;;
      if negb (truthy preferred_entry) then ret PNone
      else
        raw_cookie_string <- lift (py_get preferred_entry "cookies" PNone) ;;
        if negb (truthy raw_cookie_string) then ret PNone
        else
          parts <- lift (py_split_semicolon raw_cookie_string) ;;
          lift (scan_cookie_parts parts)
   end)
    (mkworld (w_env w) (w_requests w)
       (w_trace w ++ [EvExists SEARCH_COOKIES_FILE;
                      EvReadText SEARCH_COOKIES_FILE])).
Proof.
  intros H. unfold _load_cookie_from_search_results.
  erewrite bind_ok by apply path_exists_run. cbn [w_env]. rewrite H.
  cbn [negb].
  erewrite bind_ok by (apply load_json_file_run; exact H).
  cbn [w_env w_requests w_trace]. rewrite <- app_assoc. reflexivity.
Qed.

(** X5: the harvest gives no credential when the capture file is absent or
    is not JSON, when the object has no preferred entry or an empty one,
    and when the entry has no cookie string or an empty one. *)
Theorem harvest_no_credential w :
  (fs (w_env w) SEARCH_COOKIES_FILE = Missing ->
   fst (_load_cookie_from_search_results w) = ok PNone) /\
  (fs (w_env w) SEARCH_COOKIES_FILE = Content NotJson ->
   fst (_load_cookie_from_search_results w) = ok PNone) /\
  (forall data,
     fs (w_env w) SEARCH_COOKIES_FILE = Content (Json (PDict data)) ->
     truthy (get_default PREFERRED_COOKIE_KEY data PNone) = false ->
     fst (_load_cookie_from_search_results w) = ok PNone) /\
  (forall data entry,
     fs (w_env w) SEARCH_COOKIES_FILE = Content (Json (PDict data)) ->
     lookup PREFERRED_COOKIE_KEY data = Some (PDict entry) ->
     truthy (get_default "cookies" entry PNone) = false ->
     fst (_load_cookie_from_search_results w) = ok PNone).
Proof.
  split; [|split; [|split]].
  - intros H. unfold _load_cookie_from_search_results.
    erewrite bind_ok by apply path_exists_run. cbn [w_env]. now rewrite H.
  - intros H. unfold _load_cookie_from_search_results.
    erewrite bind_ok by apply path_exists_run. cbn [w_env]. rewrite H.
    cbn [negb]. unfold load_json_file, try_except, read_text, bind, log, lift.
    cbn. rewrite H. reflexivity.
  - intros data H Hf. rewrite (harvest_prefix w _ H). cbv beta iota.
    rewrite py_get_dict. unfold bind at 1. unfold lift at 1. cbn [ok].
    now rewrite Hf.
  - intros data entry H He Hf. rewrite (harvest_prefix w _ H). cbv beta iota.
    rewrite py_get_dict. unfold bind at 1. unfold lift at 1. cbn [ok].
    assert (Hg : get_default PREFERRED_COOKIE_KEY data PNone = PDict entry)
      by (unfold get_default; now rewrite He).
    rewrite Hg.
    destruct (truthy (PDict entry)); [|reflexivity]. cbn [negb].
    rewrite py_get_dict. unfold bind at 1. unfold lift at 1. cbn [ok].
    now rewrite Hf.
Qed.

(** X6: the harvest raises AttributeError, which nothing catches, when the
    capture file holds JSON that is not an object, when the preferred
    entry is a non-empty value that is not an object, and when the cookie
    string is a non-empty value that is not a string; a capture file that
    cannot be read raises OSError. *)
Theorem harvest_uncaught_errors w :
  (fs (w_env w) SEARCH_COOKIES_FILE = Unreadable ->
   fst (_load_cookie_from_search_results w) = raise OSError) /\
  (forall v, fs (w_env w) SEARCH_COOKIES_FILE = Content (Json v) ->
     match v with PDict _ => False | _ => True end ->
     fst (_load_cookie_from_search_results w) = raise AttributeError) /\
  (forall data entry,
     fs (w_env w) SEARCH_COOKIES_FILE = Content (Json (PDict data)) ->
     lookup PREFERRED_COOKIE_KEY data = Some entry ->
     truthy entry = true ->
     match entry with PDict _ => False | _ => True end ->
     fst (_load_cookie_from_search_results w) = raise AttributeError) /\
  (forall data entry raw,
     fs (w_env w) SEARCH_COOKIES_FILE = Content (Json (PDict data)) ->
     lookup PREFERRED_COOKIE_KEY data = Some (PDict entry) ->
     lookup "cookies" entry = Some raw -> truthy raw = true ->
     match raw with PStr _ => False | _ => True end ->
     fst (_load_cookie_from_search_results w) = raise AttributeError).
Proof.
  split; [|split; [|split]].
  - intros H. unfold _load_cookie_from_search_results.
    erewrite bind_ok by apply path_exists_run. cbn [w_env]. rewrite H.
    cbn [negb]. unfold load_json_file, try_except, read_text, bind, log, lift.
    cbn. rewrite H. reflexivity.
  - intros v H Hv. rewrite (harvest_prefix w v H).
    destruct v; try contradiction; reflexivity.
  - intros data entry H He Ht Hv. rewrite (harvest_prefix w _ H).
    cbv beta iota. rewrite py_get_dict.
    unfold bind at 1. unfold lift at 1. cbn [ok].
    unfold get_default. rewrite He, Ht. cbn [negb].
    destruct entry; try contradiction; reflexivity.
  - intros data entry raw H He Hr Ht Hv. rewrite (harvest_prefix w _ H).
    cbv beta iota. rewrite py_get_dict.
    unfold bind at 1. unfold lift at 1. cbn [ok].
    assert (Hg : get_default PREFERRED_COOKIE_KEY data PNone = PDict entry)
      by (unfold get_default; now rewrite He).
    rewrite Hg.
    assert (Hte : truthy (PDict entry) = true)
      by (destruct entry; [discriminate Hr|reflexivity]).
    rewrite Hte. cbn [negb]. rewrite py_get_dict.
    unfold bind at 1. unfold lift at 1. cbn [ok].
    unfold get_default. rewrite Hr, Ht. cbn [negb].
    destruct raw; try contradiction; reflexivity.
Qed.

(** X7: a harvested credential is not written to the store: when the disk
    load gives none and the harvest succeeds, the chain returns the
    harvested value and leaves every file, the clock and the request count
    as they were, so the next run starts from the same store. *)
Theorem harvest_is_not_persisted R w c0 w1 c w2 :
  _load_cookie_from_disk w = (ok c0, w1) -> truthy c0 = false ->
  _load_cookie_from_search_results w1 = (ok c, w2) -> truthy c = true ->
  get_wssessionid R w = (ok c, w2) /\
  w_env w2 = w_env w /\ w_requests w2 = w_requests w.
Proof.
  intros Hd Hc0 Hp Hc.
  destruct (frames_run _ _ _ _ _ frames_load_cookie_from_disk Hd)
    as (_ & _ & _ & He1 & Hn1).
  destruct (frames_run _ _ _ _ _ frames_load_cookie_from_search_results Hp)
    as (_ & _ & _ & He2 & Hn2).
  split; [|split; congruence].
  unfold get_wssessionid.
  rewrite (bind_ok _ _ _ _ _ Hd), Hc0, (bind_ok _ _ _ _ _ Hp), Hc.
  reflexivity.
Qed.

Lemma harvest_is_not_persisted_witness :
  fst (get_wssessionid (sample_runtime http_week) stale_world)
    = ok (PStr "abc123") /\
  fs (w_env (snd (get_wssessionid (sample_runtime http_week) stale_world)))
     COOKIE_FILE = cookie_record "2025-03-09T23:59:00".
Proof.
  destruct (harvest_is_not_persisted (sample_runtime http_week) stale_world
              PNone (snd (_load_cookie_from_disk stale_world))
              (PStr "abc123")
              (snd (_load_cookie_from_search_results
                      (snd (_load_cookie_from_disk stale_world))))
              ltac:(vm_compute; reflexivity) ltac:(vm_compute; reflexivity)
              ltac:(vm_compute; reflexivity) ltac:(vm_compute; reflexivity))
    as (E & He & _).
  rewrite E. cbn [fst snd]. split; [reflexivity|].
  rewrite He. vm_compute. reflexivity.
Defined.

(** ** Further properties of the credential chain *)

(** X8: a credential the chain returns is never None nor empty: every
    return passes a truth test, so a caller can use the value without a
    check. *)
Theorem get_wssessionid_returns_truthy R w c w' :
  get_wssessionid R w = (ok c, w') -> truthy c = true.
Proof.
  unfold get_wssessionid, bind.
  destruct (_load_cookie_from_disk w) as [[e|c0] w1]; [discriminate|].
  destruct (truthy c0) eqn:E0.
  { intros H. injection H as <- _. exact E0. }
  destruct (_load_cookie_from_search_results w1) as [[e|c1] w2];
    [discriminate|].
  destruct (truthy c1) eqn:E1.
  { intros H. injection H as <- _. exact E1. }
  destruct (_run_cookie_script R w2) as [[e|u] w3]; [discriminate|].
  destruct (_load_cookie_from_disk w3) as [[e|c3] w4]; [discriminate|].
  destruct (truthy c3) eqn:E3; cbn [negb].
  - intros H. injection H as <- _. exact E3.
  - discriminate.
Qed.

Lemma get_wssessionid_returns_truthy_witness :
  truthy (PStr "abc123") = true.
Proof.
  exact (get_wssessionid_returns_truthy (sample_runtime http_week) fresh_world
           (PStr "abc123")
           (snd (get_wssessionid (sample_runtime http_week) fresh_world))
           ltac:(vm_compute; reflexivity)).
Defined.

Lemma run_cookie_script_requests R w :
  w_requests (snd (_run_cookie_script R w)) = w_requests w.
Proof.
  destruct (run_cookie_script_run R w) as (t & _ & H). rewrite H.
  destruct (find_script (w_env w)); reflexivity.
Qed.

Lemma credential_effect_not_get t :
  Forall credential_effect t ->
  (forall u h, ~ In (EvGet u h) t) /\ (forall q, ~ In (EvSleep q) t).
Proof.
  intros H. rewrite Forall_forall in H.
  split; intros; intros Hin; apply H in Hin; exact Hin.
Qed.

(** The chain leaves the request count as it was. *)
Lemma get_wssessionid_requests R w :
  w_requests (snd (get_wssessionid R w)) = w_requests w.
Proof.
  unfold get_wssessionid, bind.
  pose proof (frames_load_cookie_from_disk w) as (_ & _ & _ & _ & Hn1).
  destruct (_load_cookie_from_disk w) as [[e|c0] w1]; cbn [snd] in *;
    [exact Hn1|].
  destruct (truthy c0); [exact Hn1|].
  pose proof (frames_load_cookie_from_search_results w1)
    as (_ & _ & _ & _ & Hn2).
  destruct (_load_cookie_from_search_results w1) as [[e|c1] w2];
    cbn [snd] in *; [lia|].
  destruct (truthy c1); [unfold ret; cbn [snd]; lia|].
  pose proof (run_cookie_script_requests R w2) as Hn3.
  destruct (_run_cookie_script R w2) as [[e|u] w3]; cbn [snd] in *;
    [lia|].
  pose proof (frames_load_cookie_from_disk w3) as (_ & _ & _ & _ & Hn4).
  destruct (_load_cookie_from_disk w3) as [[e|c3] w4]; cbn [snd] in *;
    [lia|].
  destruct (negb (truthy c3)); cbn [snd throw ret]; lia.
Qed.

(** X9: the credential chain talks to the file system, the clock and the
    extractor only: on every path, returning or raising, it sends no
    request, never pauses, and leaves the request count as it was. *)
Theorem credential_chain_makes_no_request R w :
  w_requests (snd (get_wssessionid R w)) = w_requests w /\
  exists t,
    w_trace (snd (get_wssessionid R w)) = (w_trace w ++ t)%list /\
    Forall credential_effect t /\
    (forall u h, ~ In (EvGet u h) t) /\ (forall q, ~ In (EvSleep q) t).
Proof.
  split.
  - apply get_wssessionid_requests.
  - destruct (emits_get_wssessionid R w) as (t & Ht & HF).
    exists t. split; [exact Ht|]. split; [exact HF|].
    apply credential_effect_not_get, HF.
Qed.

(** X10: the extractor is looked for in a fixed order: the first candidate,
    when it exists, is taken without a look at the second; the second is
    taken only when the first is absent; with neither, FileNotFoundError
    names both.  Nothing is run and nothing is changed. *)
Theorem find_cookie_script_order w :
  let first := "cmu25live_extractor.py" in
  let second := "cmu_25live_search_cookie_extractor.py" in
  (file_exists (w_env w) first = true ->
   _find_cookie_script w =
   (ok first,
    mkworld (w_env w) (w_requests w) (w_trace w ++ [EvExists first]))) /\
  (file_exists (w_env w) first = false ->
   file_exists (w_env w) second = true ->
   _find_cookie_script w =
   (ok second,
    mkworld (w_env w) (w_requests w)
            (w_trace w ++ [EvExists first; EvExists second]))) /\
  (file_exists (w_env w) first = false ->
   file_exists (w_env w) second = false ->
   _find_cookie_script w =
   (raise (FileNotFoundError no_extractor_message),
    mkworld (w_env w) (w_requests w)
            (w_trace w ++ [EvExists first; EvExists second]))).
Proof.
  intros first second.
  unfold _find_cookie_script, extractor_candidates. cbn [first_existing].
  fold first. fold second.
  split; [|split].
  - intros H1. erewrite bind_ok by apply path_exists_run.
    fold (file_exists (w_env w) first). rewrite H1. reflexivity.
  - intros H1 H2. erewrite bind_ok by apply path_exists_run.
    fold (file_exists (w_env w) first). rewrite H1.
    erewrite bind_ok by apply path_exists_run. cbn [w_env].
    fold (file_exists (w_env w) second). rewrite H2.
    unfold ret. cbn [w_env w_requests w_trace]. rewrite <- app_assoc.
    reflexivity.
  - intros H1 H2. erewrite bind_ok by apply path_exists_run.
    fold (file_exists (w_env w) first). rewrite H1.
    erewrite bind_ok by apply path_exists_run. cbn [w_env].
    fold (file_exists (w_env w) second). rewrite H2.
    unfold throw. cbn [w_env w_requests w_trace]. rewrite <- app_assoc.
    reflexivity.
Qed.

(** An instance of the three fatal outcomes of the extraction tier: no
    extractor; an extractor that exits with status 2; an extractor that
    exits with status 0 and stores nothing. *)
Lemma acquisition_fatal_cases_witness :
  fst (get_wssessionid (sample_runtime http_week) bare_world)
    = raise (FileNotFoundError no_extractor_message) /\
  fst (get_wssessionid failing_runtime
         (sample_world Missing Missing true false noon 0))
    = raise (RuntimeError
               "Cookie extractor cmu25live_extractor.py failed with code 2")
  /\
  fst (get_wssessionid idle_runtime
         (sample_world Missing Missing true false noon 0))
    = raise (RuntimeError
               "Cookie file was not created by the extractor script").
Proof.
  split; [|split].
  - pose proof (acquisition_fatal_cases (sample_runtime http_week) bare_world
        PNone (snd (_load_cookie_from_disk bare_world))
        PNone (snd (_load_cookie_from_search_results
                      (snd (_load_cookie_from_disk bare_world))))
        ltac:(vm_compute; reflexivity) ltac:(vm_compute; reflexivity)
        ltac:(vm_compute; reflexivity) ltac:(vm_compute; reflexivity))
      as [_ H].
    exact (proj1 H).
  - pose proof (acquisition_fatal_cases failing_runtime
        (sample_world Missing Missing true false noon 0)
        PNone (snd (_load_cookie_from_disk
                      (sample_world Missing Missing true false noon 0)))
        PNone (snd (_load_cookie_from_search_results
                 (snd (_load_cookie_from_disk
                         (sample_world Missing Missing true false noon 0)))))
        ltac:(vm_compute; reflexivity) ltac:(vm_compute; reflexivity)
        ltac:(vm_compute; reflexivity) ltac:(vm_compute; reflexivity))
      as [_ H].
    exact (proj1 (proj2 H) ltac:(vm_compute; discriminate)).
  - pose proof (acquisition_fatal_cases idle_runtime
        (sample_world Missing Missing true false noon 0)
        PNone (snd (_load_cookie_from_disk
                      (sample_world Missing Missing true false noon 0)))
        PNone (snd (_load_cookie_from_search_results
                 (snd (_load_cookie_from_disk
                         (sample_world Missing Missing true false noon 0)))))
        ltac:(vm_compute; reflexivity) ltac:(vm_compute; reflexivity)
        ltac:(vm_compute; reflexivity) ltac:(vm_compute; reflexivity))
      as [_ H].
    refine (proj1 (proj2 (proj2 H) ltac:(vm_compute; reflexivity) PNone _ _)
              eq_refl).
    vm_compute. reflexivity.
Defined.

(** ** Further properties of the event fetcher *)

(** X12: a call of the fetcher sends exactly one request, whatever comes of
    it: the request goes to the URL of the pair with the credential in the
    Cookie header, nothing is retried, and neither a file nor the clock is
    touched. *)
Theorem fetch_sends_one_request R b d c w :
  w_requests (snd (fetch_building_events R b d c w)) = S (w_requests w) /\
  w_env (snd (fetch_building_events R b d c w)) = w_env w /\
  w_trace (snd (fetch_building_events R b d c w)) =
    (w_trace w ++ [EvGet (get_url b d) ("WSSESSIONID=" ++ py_str R c)])%list.
Proof. rewrite fetch_building_events_run. repeat split. Qed.

(** An instance of the caught failures: a timeout, a status 500 and a
    body that is not JSON. *)
Lemma fetch_failure_empty_witness :
  fst (fetch_building_events (sample_runtime http_week) "583845" "2025-03-10"
         (PStr "abc123") (sample_world Missing Missing true false noon 0))
    = ok [] /\
  fst (fetch_building_events (sample_runtime http_week) "583845" "2025-03-10"
         (PStr "abc123") (sample_world Missing Missing true false noon 1))
    = ok [] /\
  fst (fetch_building_events (sample_runtime http_week) "583845" "2025-03-10"
         (PStr "abc123") (sample_world Missing Missing true false noon 2))
    = ok [].
Proof.
  split; [|split].
  - apply fetch_failure_empty. left. exists Timeout. reflexivity.
  - apply fetch_failure_empty. right. exists (mkresp 500 NotJson).
    split; [reflexivity|left; reflexivity].
  - apply fetch_failure_empty. right. exists (mkresp 200 NotJson).
    split; [reflexivity|right; reflexivity].
Defined.

(** X14: a parsed answer without reservations gives the empty list and no
    error: an object without "root", a root without "events", and a first
    element of "events" whose "rsrv" is missing, null or empty. *)
Theorem events_of_data_without_reservations R b day d :
  (lookup "root" d = None -> events_of_data R b day (PDict d) = ok []) /\
  (forall r, lookup "root" d = Some (PDict r) -> lookup "events" r = None ->
     events_of_data R b day (PDict d) = ok []) /\
  (forall r first rest,
     lookup "root" d = Some (PDict r) ->
     lookup "events" r = Some (PList (PDict first :: rest)) ->
     truthy (get_default "rsrv" first PNone) = false ->
     events_of_data R b day (PDict d) = ok []).
Proof.
  split; [|split].
  - intros H. unfold events_of_data. rewrite py_get_dict.
    unfold get_default. rewrite H. reflexivity.
  - intros r Hr He. unfold events_of_data. rewrite py_get_dict.
    unfold get_default at 1. rewrite Hr. cbn [rbind ok].
    rewrite py_get_dict. unfold get_default. rewrite He. reflexivity.
  - intros r first rest Hr He Ht.
    apply (events_of_data_no_reservations R b day (PDict d) (PDict r)
             (PDict first) rest (get_default "rsrv" first PNone)).
    + rewrite py_get_dict. unfold get_default. now rewrite Hr.
    + rewrite py_get_dict. unfold get_default. now rewrite He.
    + apply py_get_dict.
    + exact Ht.
Qed.

(** X15: the shapes the fetcher does not guard raise: a body that is not an
    object or a root that is not one raises AttributeError, an empty
    "events" list raises IndexError, "events" as an object raises KeyError,
    "events" as null or a number raises TypeError, and a reservation entry
    whose "subject" is null raises TypeError. *)
Theorem events_of_data_shape_errors R b day :
  (forall v, match v with PDict _ => False | _ => True end ->
     events_of_data R b day v = raise AttributeError) /\
  (forall d v, lookup "root" d = Some v ->
     match v with PDict _ => False | _ => True end ->
     events_of_data R b day (PDict d) = raise AttributeError) /\
  (forall d r evs, lookup "root" d = Some (PDict r) ->
     lookup "events" r = Some evs ->
     (evs = PList [] -> events_of_data R b day (PDict d) = raise IndexError) /\
     (forall x, evs = PDict x ->
        events_of_data R b day (PDict d) = raise KeyError) /\
     (evs = PNone \/ (exists n, evs = PInt n) ->
      events_of_data R b day (PDict d) = raise TypeError)) /\
  (forall d r first rest e entries,
     lookup "root" d = Some (PDict r) ->
     lookup "events" r = Some (PList (PDict first :: rest)) ->
     lookup "rsrv" first = Some (PList (PDict e :: entries)) ->
     lookup "subject" e = Some PNone ->
     events_of_data R b day (PDict d) = raise TypeError).
Proof.
  split; [|split; [|split]].
  - intros v Hv. destruct v; try contradiction; reflexivity.
  - intros d v Hr Hv. unfold events_of_data. rewrite py_get_dict.
    unfold get_default. rewrite Hr. destruct v; try contradiction; reflexivity.
  - intros d r evs Hr He.
    assert (E : events_of_data R b day (PDict d) =
                rbind (py_index0 evs) (events_of_first R b day)).
    { unfold events_of_data, events_of_first. rewrite py_get_dict.
      unfold get_default at 1. rewrite Hr. cbn [rbind ok].
      rewrite py_get_dict. unfold get_default. rewrite He. reflexivity. }
    rewrite E. split; [|split].
    + intros ->. reflexivity.
    + intros x ->. reflexivity.
    + intros [->|[n ->]]; reflexivity.
  - intros d r first rest e entries Hr He Hrs Hs.
    rewrite (events_of_data_first R b day (PDict d) (PDict r) (PDict first) rest).
    + unfold events_of_first. rewrite py_get_dict. unfold get_default.
      rewrite Hrs. cbn [rbind ok truthy negb py_iter for_each_r].
      unfold append_event at 1. rewrite py_get_dict. unfold get_default.
      rewrite Hs. reflexivity.
    + rewrite py_get_dict. unfold get_default. now rewrite Hr.
    + rewrite py_get_dict. unfold get_default. now rewrite He.
Qed.

Lemma for_each_r_invariant {A S} (P : S -> Prop) (body : A -> S -> result S) :
  (forall x s s', body x s = ok s' -> P s -> P s') ->
  forall xs s s', for_each_r body xs s = ok s' -> P s -> P s'.
Proof.
  intros Hb. induction xs as [|x xs IH]; intros s s' H Hs; cbn in H.
  - injection H as <-. exact Hs.
  - destruct (body x s) as [e|s1] eqn:E; [discriminate H|].
    cbn in H. eapply IH; [exact H|]. eapply Hb; eauto.
Qed.

Lemma append_location_invariant R b day ev loc acc acc' :
  append_location R b day ev loc acc = ok acc' ->
  Forall (fun r => date r = day /\ buildingID r = b) acc ->
  Forall (fun r => date r = day /\ buildingID r = b) acc'.
Proof.
  unfold append_location. intros H Hacc.
  destruct (py_get ev "event_name" (PStr "")) as [|n]; [discriminate H|].
  destruct (py_get loc "itemName" PNone) as [|i]; [discriminate H|].
  destruct (py_get ev "rsrv_start_dt" PNone) as [|s]; [discriminate H|].
  destruct (py_get ev "rsrv_end_dt" PNone) as [|t]; [discriminate H|].
  cbn in H. injection H as <-. apply Forall_app. split; [exact Hacc|].
  constructor; [split; reflexivity|constructor].
Qed.

Lemma append_event_invariant R b day ev acc acc' :
  append_event R b day ev acc = ok acc' ->
  Forall (fun r => date r = day /\ buildingID r = b) acc ->
  Forall (fun r => date r = day /\ buildingID r = b) acc'.
Proof.
  unfold append_event. intros H.
  destruct (py_get ev "subject" (PList [])) as [|subject]; [discriminate H|].
  cbn [rbind] in H.
  destruct (py_iter subject) as [|locs]; [discriminate H|].
  cbn [rbind] in H.
  apply (for_each_r_invariant _ (append_location R b day ev)
           (fun x s s' => append_location_invariant R b day ev x s s')
           locs acc acc' H).
Qed.

(** X16: every record the fetcher returns carries the day and the building
    of the request, whatever the service answered: the answer's own dates
    and identifiers never reach these fields. *)
Theorem fetched_records_carry_request R b day c w evs :
  fst (fetch_building_events R b day c w) = ok evs ->
  Forall (fun r => date r = day /\ buildingID r = b) evs.
Proof.
  rewrite fetch_building_events_run. cbn [fst]. unfold fetch_outcome.
  destruct (http R _ _ _) as [e|resp].
  { intros H. injection H as <-. constructor. }
  destruct (is_error_status _).
  { intros H. injection H as <-. constructor. }
  destruct (body resp) as [|data].
  { intros H. injection H as <-. constructor. }
  unfold events_of_data.
  destruct (py_get data "root" (PDict [])) as [|root]; [discriminate|].
  cbn [rbind].
  destruct (py_get root "events" (PList [PDict []])) as [|evs0];
    [discriminate|].
  cbn [rbind].
  destruct (py_index0 evs0) as [|first]; [discriminate|]. cbn [rbind].
  destruct (py_get first "rsrv" PNone) as [|rsrv]; [discriminate|].
  cbn [rbind].
  destruct (negb (truthy rsrv)).
  { intros H. injection H as <-. constructor. }
  destruct (py_iter rsrv) as [|entries]; [discriminate|]. cbn [rbind].
  intros H.
  apply (for_each_r_invariant _ (append_event R b day)
           (fun x s s' => append_event_invariant R b day x s s')
           entries [] evs H).
  constructor.
Qed.

Lemma fetched_records_carry_request_witness :
  Forall (fun r => date r = "2025-03-10" /\ buildingID r = "583845")
    [mkevent "Seminar" (PStr "Room A") (PStr "2025-03-10T09:00:00")
             (PStr "2025-03-10T10:00:00") "2025-03-10" "583845";
     mkevent "Seminar" (PStr "Room B") (PStr "2025-03-10T09:00:00")
             (PStr "2025-03-10T10:00:00") "2025-03-10" "583845"].
Proof.
  exact (fetched_records_carry_request
           (sample_runtime (http_const (answer 200 body_two_elements)))
           "583845" "2025-03-10" (PStr "abc123") fresh_world _
           ltac:(vm_compute; reflexivity)).
Defined.

(** ** Further properties of the URL and the orchestrator *)

Lemma length_append a b :
  String.length (a ++ b) = (String.length a + String.length b)%nat.
Proof. induction a; cbn; [reflexivity|now rewrite IHa]. Qed.

Lemma append_inj_length a : forall a' x x',
  String.length a = String.length a' ->
  a ++ x = a' ++ x' -> a = a' /\ x = x'.
Proof.
  induction a as [|c a IH]; intros [|c' a'] x x' Hl H;
    try discriminate Hl; cbn in *.
  - auto.
  - injection H as -> H. injection Hl as Hl.
    destruct (IH a' x x' Hl H) as [-> ->]. auto.
Qed.

(** X17: the URL determines the pair: two requests for building identifiers
    of the same length, as those of the fixed set are, have the same URL
    only when building and day are the same. *)
Theorem get_url_injective b d b' d' :
  String.length b = String.length b' ->
  get_url b d = get_url b' d' -> b = b' /\ d = d'.
Proof.
  intros Hl H. unfold get_url in H.
  apply append_inj_length in H as [_ H]; [|reflexivity].
  apply append_inj_length in H as [_ H]; [|reflexivity].
  apply append_inj_length in H as [Hb H]; [|exact Hl].
  split; [exact Hb|].
  apply append_inj_length in H as [_ H]; [|reflexivity].
  assert (Hd : String.length d = String.length d').
  { apply (f_equal String.length) in H.
    rewrite !length_append in H. cbn [String.length] in H. lia. }
  apply append_inj_length in H as [Hd' _]; [exact Hd'|exact Hd].
Qed.

Lemma get_url_injective_witness :
  "583845" = "583845" /\ "2025-03-10" = "2025-03-10".
Proof.
  exact (get_url_injective "583845" "2025-03-10" "583845" "2025-03-10"
           eq_refl eq_refl).
Defined.

(** X18: a failure of the credential chain aborts the run before any
    request: the orchestrator raises the chain's exception in the world
    the chain left, in which no request was sent. *)
Theorem acquisition_failure_sends_no_request R w e w1 :
  get_wssessionid R w = (raise e, w1) ->
  get_current_week_events R w = (raise e, w1) /\
  w_requests w1 = w_requests w /\
  exists t, w_trace w1 = (w_trace w ++ t)%list /\
            forall u h, ~ In (EvGet u h) t.
Proof.
  intros H. split; [|split].
  - unfold get_current_week_events. apply bind_raise. exact H.
  - pose proof (get_wssessionid_requests R w) as Hn. rewrite H in Hn.
    exact Hn.
  - destruct (emits_get_wssessionid R w) as (t & Ht & HF).
    rewrite H in Ht. exists t. split; [exact Ht|].
    apply credential_effect_not_get, HF.
Qed.

Lemma acquisition_failure_sends_no_request_witness :
  get_current_week_events (sample_runtime http_week) bare_world
  = (raise (FileNotFoundError no_extractor_message),
     snd (get_wssessionid (sample_runtime http_week) bare_world)).
Proof.
  exact (proj1 (acquisition_failure_sends_no_request
                  (sample_runtime http_week) bare_world
                  (FileNotFoundError no_extractor_message)
                  (snd (get_wssessionid (sample_runtime http_week) bare_world))
                  ltac:(vm_compute; reflexivity))).
Defined.

(** X19: a credential that is a JSON number or boolean, stored as token,
    passes the chain's truth test and then makes the orchestrator raise
    TypeError at the slice of its progress message, before any request. *)
Theorem unsliceable_credential_aborts R w c w1 :
  get_wssessionid R w = (ok c, w1) ->
  match c with PInt _ | PFloat _ | PBool _ => True | _ => False end ->
  get_current_week_events R w = (raise TypeError, w1).
Proof.
  intros H Hc. unfold get_current_week_events.
  rewrite (bind_ok _ _ _ _ _ H).
  apply bind_raise. destruct c; try contradiction; reflexivity.
Qed.

Lemma unsliceable_credential_aborts_witness :
  fst (get_current_week_events (sample_runtime http_week) number_token_world)
  = raise TypeError.
Proof.
  rewrite (unsliceable_credential_aborts (sample_runtime http_week)
             number_token_world (PInt 42)
             (snd (get_wssessionid (sample_runtime http_week)
                     number_token_world))
             ltac:(vm_compute; reflexivity) I).
  reflexivity.
Defined.

(** The loop up to an iteration whose fetch raises *)
Lemma flat_loop_raise R c ps1 p ps2 lists e acc w :
  outcomes R c (w_requests w) ps1 = map ok lists ->
  outcome_at R c (w_requests w + List.length ps1) p = raise e ->
  for_each (fetch_pair R c) (ps1 ++ p :: ps2) acc w =
  (raise e,
   mkworld (w_env w) (S (w_requests w + List.length ps1))
     (w_trace w ++ flat_map (fetch_effects R c) ps1 ++
      [EvGet (get_url (fst p) (snd p)) (cookie_header R c)])).
Proof.
  intros H1 Hp. rewrite for_each_app.
  rewrite (bind_ok _ _ _ _ _ (flat_loop R c ps1 lists acc w H1)).
  cbn [for_each]. apply bind_raise.
  rewrite fetch_pair_run. cbn [w_env w_requests w_trace].
  rewrite Hp. cbn [rbind raise]. rewrite <- app_assoc. reflexivity.
Qed.

(** X20: a fetch that raises ends the run at once: the orchestrator raises
    that exception, the lists gathered so far are lost, the pause after
    the failing request is skipped, and the pairs that follow are never
    requested. *)
Theorem fetch_exception_aborts_run R w c w1 week ps1 p ps2 lists e :
  get_wssessionid R w = (ok c, w1) ->
  (exists s, py_slice20 c = ok s) ->
  week_dates (dt_date (now (w_env w1))) = ok week ->
  list_prod BUILDING_IDS week = (ps1 ++ p :: ps2)%list ->
  outcomes R c (w_requests w1) ps1 = map ok lists ->
  outcome_at R c (w_requests w1 + List.length ps1) p = raise e ->
  get_current_week_events R w =
  (raise e,
   mkworld (w_env w1) (S (w_requests w1 + List.length ps1))
     (w_trace w1 ++ [EvToday] ++ flat_map (fetch_effects R c) ps1 ++
      [EvGet (get_url (fst p) (snd p)) (cookie_header R c)])).
Proof.
  intros Hcred [sl Hslice] Hweek Hpairs Hout Hp.
  unfold get_current_week_events.
  rewrite (bind_ok _ _ _ _ _ Hcred). rewrite Hslice.
  unfold bind at 1. unfold lift at 1. cbn [ok].
  unfold bind at 1. rewrite get_current_week_dates_run, Hweek. cbn [ok].
  rewrite (nested_loops_flat (fetch_pair R c) week BUILDING_IDS).
  rewrite Hpairs.
  rewrite (flat_loop_raise R c ps1 p ps2 lists e); [|exact Hout|exact Hp].
  cbn [w_env w_requests w_trace app]. rewrite <- !app_assoc. reflexivity.
Qed.

Lemma fetch_exception_aborts_run_witness :
  fst (get_current_week_events (sample_runtime http_breaks_second)
         fresh_world) = raise IndexError /\
  w_requests (snd (get_current_week_events
                     (sample_runtime http_breaks_second) fresh_world))
    = 2%nat.
Proof.
  rewrite (fetch_exception_aborts_run (sample_runtime http_breaks_second)
    fresh_world (PStr "abc123")
    (snd (get_wssessionid (sample_runtime http_breaks_second) fresh_world))
    ["2025-03-10"; "2025-03-11"; "2025-03-12"; "2025-03-13"; "2025-03-14";
     "2025-03-15"; "2025-03-16"]
    [("618852", "2025-03-10")] ("618852", "2025-03-11")
    (tl (tl (list_prod BUILDING_IDS
      ["2025-03-10"; "2025-03-11"; "2025-03-12"; "2025-03-13"; "2025-03-14";
       "2025-03-15"; "2025-03-16"])))
    [[mkevent "Seminar" (PStr "Room A") (PStr "2025-03-10T09:00:00")
              (PStr "2025-03-10T10:00:00") "2025-03-10" "618852";
      mkevent "Seminar" (PStr "Room B") (PStr "2025-03-10T09:00:00")
              (PStr "2025-03-10T10:00:00") "2025-03-10" "618852"]]
    IndexError
    ltac:(vm_compute; reflexivity)
    (ex_intro _ (PStr "abc123") eq_refl)
    ltac:(vm_compute; reflexivity)
    ltac:(vm_compute; reflexivity)
    ltac:(vm_compute; reflexivity)
    ltac:(vm_compute; reflexivity)).
  split; vm_compute; reflexivity.
Defined.

Lemma week_dates_last_week_raises_witness :
  week_dates (Calendar.mkdate 9999 12 29) = raise OverflowError.
Proof.
  exact (week_dates_last_week_raises (Calendar.mkdate 9999 12 29)
           ltac:(vm_compute; reflexivity) ltac:(vm_compute; reflexivity)).
Defined.

(** ** The output file and the exit status *)

Lemma save_nonempty_run events file w :
  events <> [] -> fs (w_env w) file <> Unreadable ->
  save_events_to_file events file w =
  (ok tt,
   mkworld (with_file (w_env w) file (Json (PList (map event_dict events))))
           (w_requests w) (w_trace w)).
Proof.
  intros Hne Hfs. destruct events as [|r events]; [contradiction|].
  unfold save_events_to_file, write_json.
  destruct (fs (w_env w) file); [reflexivity|contradiction|reflexivity].
Qed.

(** X22: the exit status of main tells whether the run raised: 1 when the
    orchestrator raises, with no file written; 0 when the week holds no
    event, again with no file written, so that an old output file
    survives; 0 when events were found and saved, the output file then
    holding them in order; 1 when the output file cannot be opened. *)
Theorem main_exit_status R w :
  (forall e w1, get_current_week_events R w = (raise e, w1) ->
     main R w = (1, w1)) /\
  (forall w1, get_current_week_events R w = (ok [], w1) ->
     main R w = (0, w1)) /\
  (forall evs w1, get_current_week_events R w = (ok evs, w1) ->
     evs <> [] -> fs (w_env w1) DEFAULT_OUTPUT_FILE <> Unreadable ->
     main R w =
     (0, mkworld (with_file (w_env w1) DEFAULT_OUTPUT_FILE
                    (Json (PList (map event_dict evs))))
                 (w_requests w1) (w_trace w1))) /\
  (forall evs w1, get_current_week_events R w = (ok evs, w1) ->
     evs <> [] -> fs (w_env w1) DEFAULT_OUTPUT_FILE = Unreadable ->
     main R w = (1, w1)).
Proof.
  split; [|split; [|split]].
  - intros e w1 H. unfold main. rewrite (bind_raise _ _ _ _ _ H).
    reflexivity.
  - intros w1 H. unfold main. rewrite (bind_ok _ _ _ _ _ H). reflexivity.
  - intros evs w1 H Hne Hfs. unfold main. rewrite (bind_ok _ _ _ _ _ H).
    destruct evs as [|r evs]; [contradiction|].
    rewrite (save_nonempty_run (r :: evs) DEFAULT_OUTPUT_FILE w1 Hne Hfs).
    reflexivity.
  - intros evs w1 H Hne Hfs. unfold main. rewrite (bind_ok _ _ _ _ _ H).
    destruct evs as [|r evs]; [contradiction|].
    unfold save_events_to_file, write_json. rewrite Hfs. reflexivity.
Qed.

(** An instance: the sample week ends with status 0 and the two records
    of the seminar in the output file; without extractor the run ends with
    status 1 and no output file. *)
Lemma main_exit_status_witness :
  (fst (main (sample_runtime http_week) fresh_world) = 0 /\
   fs (w_env (snd (main (sample_runtime http_week) fresh_world)))
      DEFAULT_OUTPUT_FILE =
   Content (Json (PList
     [PDict [("name", PStr "Seminar"); ("location", PStr "Room A");
             ("startTime", PStr "2025-03-10T09:00:00");
             ("endTime", PStr "2025-03-10T10:00:00");
             ("date", PStr "2025-03-13"); ("buildingID", PStr "618852")];
      PDict [("name", PStr "Seminar"); ("location", PStr "Room B");
             ("startTime", PStr "2025-03-10T09:00:00");
             ("endTime", PStr "2025-03-10T10:00:00");
             ("date", PStr "2025-03-13"); ("buildingID", PStr "618852")]])))
  /\
  (fst (main (sample_runtime http_week) bare_world) = 1 /\
   fs (w_env (snd (main (sample_runtime http_week) bare_world)))
      DEFAULT_OUTPUT_FILE = Missing).
Proof.
  split.
  - rewrite (proj1 (proj2 (proj2 (main_exit_status
               (sample_runtime http_week) fresh_world)))
      [mkevent "Seminar" (PStr "Room A") (PStr "2025-03-10T09:00:00")
               (PStr "2025-03-10T10:00:00") "2025-03-13" "618852";
       mkevent "Seminar" (PStr "Room B") (PStr "2025-03-10T09:00:00")
               (PStr "2025-03-10T10:00:00") "2025-03-13" "618852"]
      (snd (get_current_week_events (sample_runtime http_week) fresh_world))
      ltac:(vm_compute; reflexivity) ltac:(discriminate)
      ltac:(vm_compute; discriminate)).
    split; vm_compute; reflexivity.
  - rewrite (proj1 (main_exit_status (sample_runtime http_week) bare_world)
      (FileNotFoundError no_extractor_message)
      (snd (get_current_week_events (sample_runtime http_week) bare_world))
      ltac:(vm_compute; reflexivity)).
    split; vm_compute; reflexivity.
Defined.
